(** * RNN_continuous_to_discrete.ipynb: the data generator and the graph cell

    A shallow embedding of the notebook's code cells.

    - [RandomKit] is the generator behind [np.random.seed] and
      [np.random.rand]: numpy's legacy global Mersenne Twister
      (randomkit's [rk_seed], [rk_random], [rk_double]).
    - [np] is the handful of array operations the data cell uses, with the
      checks numpy makes on a seed and on the dimensions of a new array.
    - [tf] is the graph-building interface the model cell uses.  A call
      either declares its part of the default graph or raises, as
      TensorFlow does when the static shapes of the arguments do not fit;
      nothing is ever run.  One node of the model stands for everything a
      call creates under its name scope (the [while] loop of
      [tf.nn.dynamic_rnn] is one node), so the model speaks of scopes,
      tensors, static shapes and variables, not of TensorFlow's
      operation count.
    - [Notebook] holds the cells themselves.

    The notebook keeps the evidence that the generator is the right one: it
    reproduces the two lines cell 4 printed ([cell_4_prints]).

    Numbers.  A 32-bit word is a [Z] with its wrap-around written out.  A
    float64 is a [Q]: every double the data cell produces is [k / 2^53] with
    [0 <= k < 2^53], or [0.0], [0.5], [1.0], all of which a double holds
    exactly, so the rational arithmetic and the comparison below are the
    exact ones.  An array size is checked as numpy checks it, against the
    index type of a 64-bit build; the memory of the machine is not
    modelled, so nothing here says that an allocation numpy accepts
    succeeds. *)

From stdpp Require Import base option list strings gmap pretty.
From Stdlib Require Import ZArith QArith Qabs Lia.

Local Open Scope Z_scope.

(** ** Python exceptions *)

Inductive exn : Type :=
  | ValueError (msg : string)
  | TypeError (msg : string).

Inductive result (A : Type) : Type :=
  | Ok (a : A)
  | Raise (e : exn).
Arguments Ok {A} a.
Arguments Raise {A} e.

(** ** numpy's global generator: randomkit's MT19937 *)

Module RandomKit.

Definition RK_STATE_LEN : nat := 624.
Definition N : nat := 624.
Definition M : nat := 397.
Definition MATRIX_A : Z := 0x9908b0df.
Definition UPPER_MASK : Z := 0x80000000.
Definition LOWER_MASK : Z := 0x7fffffff.

(** [rk_state]: the key array, the read position, and the cached normal
    deviate. *)
Record rk_state : Type := {
  key : list Z;
  pos : nat;
  has_gauss : bool;
  gauss : Q;
  has_binomial : bool
}.

(** [key[i]]; the loops below only read inside the array. *)
Definition key_at (k : list Z) (i : nat) : Z := default 0 (k !! i).

(** [for (i = lo; i < lo + len; i++) body(i)] over the key array. *)
Definition for_range (lo len : nat) (body : nat → list Z → list Z)
    (k : list Z) : list Z :=
  foldl (λ k i, body i k) k (seq lo len).

(** The loop of [rk_seed]:
    [key[pos] = seed;
     seed = (1812433253UL * (seed ^ (seed >> 30)) + pos + 1) & 0xffffffffUL] *)
Fixpoint seed_loop (n : nat) (p : nat) (seed : Z) (k : list Z) : list Z :=
  match n with
  | O => k
  | S n' =>
      seed_loop n' (S p)
        (Z.land (1812433253 * Z.lxor seed (Z.shiftr seed 30) + Z.of_nat p + 1)
                0xffffffff)
        (<[p := seed]> k)
  end.

(** [rk_seed] overwrites the key array in place and resets the rest. *)
Definition rk_seed (seed : Z) (st : rk_state) : rk_state :=
  {| key := seed_loop RK_STATE_LEN 0 (Z.land seed 0xffffffff) (key st);
     pos := RK_STATE_LEN;
     has_gauss := false;
     gauss := 0%Q;
     has_binomial := false |}.

(** [y = (a & UPPER_MASK) | (b & LOWER_MASK);
     c ^ (y >> 1) ^ (-(y & 1) & MATRIX_A)] *)
Definition twist (a b c : Z) : Z :=
  let y := Z.lor (Z.land a UPPER_MASK) (Z.land b LOWER_MASK) in
  Z.lxor (Z.lxor c (Z.shiftr y 1)) (Z.land (- Z.land y 1) MATRIX_A).

(** The regeneration of the key array, in place, in the three pieces of
    [rk_random]. *)
Definition rk_gen (k : list Z) : list Z :=
  let k := for_range 0 (N - M)
             (λ i k, <[i := twist (key_at k i) (key_at k (i + 1))
                                   (key_at k (i + M))]> k) k in
  let k := for_range (N - M) (M - 1)
             (λ i k, <[i := twist (key_at k i) (key_at k (i + 1))
                                   (key_at k (i - (N - M)))]> k) k in
  <[(N - 1)%nat := twist (key_at k (N - 1)) (key_at k 0) (key_at k (M - 1))]> k.

(** The tempering of [rk_random]; [y] is a 32-bit word. *)
Definition temper (y : Z) : Z :=
  let y := Z.lxor y (Z.shiftr y 11) in
  let y := Z.lxor y (Z.land (Z.shiftl y 7) 0x9d2c5680) in
  let y := Z.lxor y (Z.land (Z.shiftl y 15) 0xefc60000) in
  Z.lxor y (Z.shiftr y 18).

Definition rk_random (st : rk_state) : Z * rk_state :=
  let '(k, p) := if decide (pos st = RK_STATE_LEN)
                 then (rk_gen (key st), 0%nat)
                 else (key st, pos st) in
  (temper (key_at k p),
   {| key := k; pos := S p; has_gauss := has_gauss st; gauss := gauss st;
      has_binomial := has_binomial st |}).

(** [(a * 67108864.0 + b) / 9007199254740992.0] for the two shifted
    words. *)
Definition double_of_words (w1 w2 : Z) : Q :=
  let a := Z.shiftr w1 5 in
  let b := Z.shiftr w2 6 in
  ((inject_Z a * 67108864 + inject_Z b) / 9007199254740992)%Q.

Definition rk_double (st : rk_state) : Q * rk_state :=
  let '(w1, st) := rk_random st in
  let '(w2, st) := rk_random st in
  (double_of_words w1 w2, st).

(** [for i in range(length): array_data[i] = rk_double(state)] *)
Fixpoint rk_fill (length : nat) (st : rk_state) : list Q * rk_state :=
  match length with
  | O => ([], st)
  | S n =>
      let '(x, st) := rk_double st in
      let '(xs, st) := rk_fill n st in
      (x :: xs, st)
  end.

(** *** Vocabulary for the properties *)

(** The C struct always holds [RK_STATE_LEN] words. *)
Definition rk_wf (st : rk_state) : Prop := length (key st) = RK_STATE_LEN.

(** A 32-bit word. *)
Definition word (x : Z) : Prop := 0 ≤ x < 4294967296.

Definition key_ok (k : list Z) : Prop := Forall word k.

(** The state is good when it is well formed and holds words. *)
Definition rk_good (st : rk_state) : Prop := rk_wf st ∧ key_ok (key st).

(** The half-open interval [[0, 1)]. *)
Definition unit_interval (x : Q) : Prop := (0 <= x)%Q ∧ (x < 1)%Q.

(** The pairs of words that [double_of_words] sends to [k / 2^53]: the top
    27 bits of the first and the top 26 bits of the second spell [k], the
    low 5 and the low 6 bits are free. *)
Definition words_of_double (k w1 w2 : Z) : Prop :=
  ∃ r1 r2, 0 ≤ r1 < 32 ∧ 0 ≤ r2 < 64 ∧
           w1 = 32 * (k `div` 67108864) + r1 ∧
           w2 = 64 * (k `mod` 67108864) + r2.

(** The next [n] words of the generator. *)
Fixpoint rk_words (n : nat) (st : rk_state) : list Z :=
  match n with
  | O => []
  | S n' => (rk_random st).1 :: rk_words n' (rk_random st).2
  end.

(** Consecutive words, two per double. *)
Fixpoint pair_up (ws : list Z) : list Q :=
  match ws with
  | w1 :: w2 :: rest => double_of_words w1 w2 :: pair_up rest
  | _ => []
  end.

End RandomKit.

(** ** TensorFlow: building the default graph *)

Module tf.

Inductive dtype : Type := float32 | int32.

#[global] Instance dtype_eq_dec : EqDecision dtype.
Proof. solve_decision. Defined.

(** A static dimension; [None] prints as [?]. *)
Definition dim : Type := option nat.

(** The name of a node: the name scope its call opened, as
    [Graph.unique_name] made it (["rnn"], ["rnn_1"]), or the full name of a
    variable (["rnn/basic_rnn_cell/kernel"]). *)
Definition op_name : Type := string.

Record tensor : Type := {
  producer : op_name;
  output_index : nat;
  t_dtype : dtype;
  t_shape : list dim
}.

Inductive activation : Type := relu | tanh.

(** A cell object.  It has no weights until it is first called; from then
    on it holds its kernel and its bias and every later call uses them. *)
Record BasicRNNCell : Type := {
  num_units : nat;
  cell_activation : activation;
  cell_weights : option (tensor * tensor)
}.

(** One node per call, with its inputs by role. *)
Inductive op_kind : Type :=
  | Placeholder
  | VariableV2
  | DynamicRNN (cell : BasicRNNCell) (inputs : tensor)
  | StridedSlice (input : tensor) (index : Z)
  | Dense (inputs kernel bias : tensor) (units : nat)
  | SparseSoftmaxCrossEntropyWithLogits (labels logits : tensor)
  | SoftmaxCrossEntropyWithLogits (logits labels : tensor)
  | Sum (input_tensor : tensor)
  | Mean (input_tensor : tensor)
  | AdamMinimize (learning_rate : Q) (loss : tensor) (var_list : list tensor).

Record operation : Type := {
  name : op_name;
  kind : op_kind;
  outputs : list tensor
}.

(** The default graph: its nodes in creation order, the dictionary behind
    [unique_name] (as far as top-level scopes go), the graph-level seed, and
    the trainable variables of its variable store, in creation order. *)
Record graph : Type := {
  operations : list operation;
  names_in_use : gmap string nat;
  graph_seed : option Z;
  variables : list tensor
}.

Definition empty_graph : graph :=
  {| operations := []; names_in_use := ∅; graph_seed := None;
     variables := [] |}.

(** A graph-building call runs on the default graph and returns a handle or
    raises.  A call that raises leaves the name of its scope used, and the
    variables it had created; the auxiliary operations TensorFlow may have
    put under that scope before it raised have no node here. *)
Definition Build (A : Type) : Type := graph → result A * graph.

#[global] Instance Build_ret : MRet Build := λ A a g, (Ok a, g).
#[global] Instance Build_bind : MBind Build := λ A B f m g,
  match m g with
  | (Ok a, g') => f a g'
  | (Raise e, g') => (Raise e, g')
  end.

Definition throw {A : Type} (e : exn) : Build A := λ g, (Raise e, g).

(** [str.lower] on the ASCII names used here. *)
Definition lower_ascii (c : Ascii.ascii) : Ascii.ascii :=
  let n := Ascii.nat_of_ascii c in
  if decide (65 ≤ n ≤ 90)%nat then Ascii.ascii_of_nat (n + 32) else c.

Fixpoint lower (s : string) : string :=
  match s with
  | EmptyString => EmptyString
  | String c s' => String (lower_ascii c) (lower s')
  end.

(** ["%s_%d" % (s, i)] *)
Definition suffixed (s : string) (i : nat) : string := s +:+ "_" +:+ pretty i.

(** The [while name_key in self._names_in_use] loop of [unique_name]: the
    first [j >= i] whose composed key is free.  At most [size names] keys
    are taken, so [S (size names)] rounds are enough. *)
Fixpoint free_suffix (fuel : nat) (names : gmap string nat) (base : string)
    (i : nat) : nat :=
  match fuel with
  | O => i
  | S fuel' =>
      if decide (is_Some (names !! suffixed base i))
      then free_suffix fuel' names base (S i)
      else i
  end.

(** [Graph.unique_name(name)] at top level: names are compared in lower
    case; the first use of a name gets the name itself, a later one the
    name with the first free counter, and both keys are marked as used. *)
Definition unique_name (nm : string) : Build op_name := λ g,
  let name_key := lower nm in
  let i := default 0%nat (names_in_use g !! name_key) in
  let names := <[name_key := S i]> (names_in_use g) in
  let with_names (m : gmap string nat) : graph :=
    {| operations := operations g; names_in_use := m;
       graph_seed := graph_seed g; variables := variables g |} in
  if decide (i = 0)%nat
  then (Ok nm, with_names names)
  else
    let j := free_suffix (S (size names)) names name_key i in
    (Ok (suffixed nm j), with_names (<[suffixed name_key j := 1%nat]> names)).

Definition append_op (o : operation) : Build unit := λ g,
  (Ok (), {| operations := operations g ++ [o];
             names_in_use := names_in_use g;
             graph_seed := graph_seed g;
             variables := variables g |}).

Definition reset_default_graph : Build unit := λ _, (Ok (), empty_graph).

Definition set_random_seed (seed : Z) : Build unit := λ g,
  (Ok (), {| operations := operations g;
             names_in_use := names_in_use g;
             graph_seed := Some seed;
             variables := variables g |}).

(** [tf.placeholder(dtype, shape)] *)
Definition placeholder (dt : dtype) (shape : list dim) : Build tensor :=
  scope ← unique_name "Placeholder";
  let t := {| producer := scope; output_index := 0; t_dtype := dt;
              t_shape := shape |} in
  _ ← append_op {| name := scope; kind := Placeholder; outputs := [t] |};
  mret t.

(** [tf.get_variable(name, shape)] in a variable scope that does not reuse:
    a variable of that name must not exist yet.  (TensorFlow's message goes
    on with the place where the variable was defined.) *)
Definition get_variable (nm : string) (dt : dtype) (shape : list nat)
    : Build tensor := λ g,
  if decide (nm ∈ producer <$> variables g)
  then (Raise (ValueError
          ("Variable " +:+ nm +:+ " already exists, disallowed."
           +:+ " Did you mean to set reuse=True or reuse=tf.AUTO_REUSE in"
           +:+ " VarScope?")), g)
  else
    let v := {| producer := nm; output_index := 0; t_dtype := dt;
                t_shape := Some <$> shape |} in
    (Ok v, {| operations :=
                operations g ++ [{| name := nm; kind := VariableV2;
                                    outputs := [v] |}];
              names_in_use := names_in_use g;
              graph_seed := graph_seed g;
              variables := variables g ++ [v] |}).

(** The first call of a [BasicRNNCell] builds it, on inputs of depth
    [depth]: it creates its kernel and its bias in the variable scope
    [rnn/basic_rnn_cell].  A built cell is used as it is; its kernel must
    fit the inputs. *)
Definition build_cell (cell : BasicRNNCell) (dt : dtype) (depth : nat)
    : Build BasicRNNCell :=
  match cell_weights cell with
  | Some (kernel, _) =>
      if decide (t_shape kernel
                 = [Some (depth + num_units cell)%nat; Some (num_units cell)])
      then mret cell
      else throw (ValueError "Dimensions must be equal")
  | None =>
      kernel ← get_variable "rnn/basic_rnn_cell/kernel" dt
                 [(depth + num_units cell)%nat; num_units cell];
      bias ← get_variable "rnn/basic_rnn_cell/bias" dt [num_units cell];
      mret {| num_units := num_units cell;
              cell_activation := cell_activation cell;
              cell_weights := Some (kernel, bias) |}
  end.

(** [tf.nn.dynamic_rnn(cell, inputs, dtype)] on batch-major inputs
    [batch, time, depth]: the per-step outputs [batch, time, num_units] and
    the final state [batch, num_units], and the cell, built.  The name
    scope is [rnn], made unique; the variable scope is [rnn] in every
    call. *)
Definition dynamic_rnn (cell : BasicRNNCell) (inputs : tensor) (dt : dtype)
    : Build (tensor * tensor * BasicRNNCell) :=
  scope ← unique_name "rnn";
  match t_shape inputs with
  | [batch; time; Some depth] =>
      cell' ← build_cell cell dt depth;
      let outs := {| producer := scope; output_index := 0; t_dtype := dt;
                     t_shape := [batch; time; Some (num_units cell)] |} in
      let state := {| producer := scope; output_index := 1; t_dtype := dt;
                      t_shape := [batch; Some (num_units cell)] |} in
      _ ← append_op {| name := scope; kind := DynamicRNN cell' inputs;
                       outputs := [outs; state] |};
      mret (outs, state, cell')
  | [_; _; None] =>
      throw (ValueError "Input size (depth of inputs) must be accessible via shape inference, but saw value None.")
  | _ =>
      throw (ValueError "Shape of the inputs must have rank 3")
  end.

(** An index is outside a dimension of known size [n] when it is not in
    [[-n, n)]. *)
Definition out_of_bounds (d : dim) (i : Z) : Prop :=
  match d with
  | Some n => ¬ (- Z.of_nat n ≤ i < Z.of_nat n)
  | None => False
  end.

#[global] Instance out_of_bounds_dec d i : Decision (out_of_bounds d i).
Proof. destruct d; apply _. Defined.

(** [t[:, i, :]]: the tensor needs three dimensions, and an index that is
    outside a statically known second dimension is refused when the graph
    is built.  (Here and below an error message of TensorFlow that goes on
    with the node and the shapes at hand is cut before them.) *)
Definition strided_slice (t : tensor) (i : Z) : Build tensor :=
  scope ← unique_name "strided_slice";
  match t_shape t with
  | d0 :: d1 :: d2 :: rest =>
      if decide (out_of_bounds d1 i)
      then throw (ValueError ("slice index " +:+ pretty i
                              +:+ " of dimension 1 out of bounds."))
      else
        let r := {| producer := scope; output_index := 0;
                    t_dtype := t_dtype t;
                    t_shape := delete 1%nat (t_shape t) |} in
        _ ← append_op {| name := scope; kind := StridedSlice t i;
                         outputs := [r] |};
        mret r
  | _ => throw (ValueError "Index out of range using input dim 2")
  end.

(** [tf.layers.dense(inputs, units)]: the inputs need two dimensions or
    more, the last one known; the layer creates its kernel and its bias in
    its own scope. *)
Definition layers_dense (inputs : tensor) (units : nat) : Build tensor :=
  scope ← unique_name "dense";
  if decide (length (t_shape inputs) < 2)%nat
  then throw (ValueError "Input 0 of layer dense is incompatible with the layer: expected min_ndim=2")
  else
    match last (t_shape inputs) with
    | Some (Some d) =>
        kernel ← get_variable (scope +:+ "/kernel") (t_dtype inputs) [d; units];
        bias ← get_variable (scope +:+ "/bias") (t_dtype inputs) [units];
        let r := {| producer := scope; output_index := 0;
                    t_dtype := t_dtype inputs;
                    t_shape := removelast (t_shape inputs) ++ [Some units] |} in
        _ ← append_op {| name := scope; kind := Dense inputs kernel bias units;
                         outputs := [r] |};
        mret r
    | _ =>
        throw (ValueError "The last dimension of the inputs to `Dense` should be defined. Found `None`.")
    end.

(** [tf.nn.sparse_softmax_cross_entropy_with_logits(labels, logits)]: the
    labels are class indices, one per row of logits, so they have one
    dimension less than the logits and an integer type.  The ranks are
    compared first. *)
Definition sparse_softmax_cross_entropy_with_logits (labels logits : tensor)
    : Build tensor :=
  scope ← unique_name "SparseSoftmaxCrossEntropyWithLogits";
  if decide (length (t_shape logits) = 0)%nat
  then throw (ValueError "Logits cannot be scalars - received shape ().")
  else if decide (length (t_shape labels) ≠ (length (t_shape logits) - 1)%nat)
  then throw (ValueError
                ("Rank mismatch: Rank of labels (received "
                 +:+ pretty (length (t_shape labels))
                 +:+ ") should equal rank of logits minus 1 (received "
                 +:+ pretty (length (t_shape logits)) +:+ ")."))
  else if decide (t_dtype labels ≠ int32)
  then throw (TypeError "Value passed to parameter 'labels' has DataType float32 not in list of allowed values: int32, int64")
  else
    let r := {| producer := scope; output_index := 0;
                t_dtype := t_dtype logits; t_shape := t_shape labels |} in
    _ ← append_op {| name := scope;
                     kind := SparseSoftmaxCrossEntropyWithLogits labels logits;
                     outputs := [r] |};
    mret r.

(** The two arguments of the dense cross-entropy are flattened to matrices
    [rows, classes]; [rows] is known when all the outer dimensions are. *)
Definition flat_rows (shape : list dim) : option nat :=
  foldr (λ d acc, n ← d; m ← acc; Some (n * m)%nat) (Some 1%nat)
        (removelast shape).

Definition fits (a b : nat) : Prop := a = b ∨ a = 1%nat ∨ b = 1%nat.

(** The static shapes of the two flattened arguments, where both are known,
    do not fit. *)
Definition misfit (logits labels : list dim) : Prop :=
  match flat_rows logits, flat_rows labels, last logits, last labels with
  | Some r1, Some r2, Some (Some c1), Some (Some c2) =>
      ¬ (fits r1 r2 ∧ fits c1 c2)
  | _, _, _, _ => False
  end.

#[global] Instance misfit_dec logits labels : Decision (misfit logits labels).
Proof.
  unfold misfit, fits.
  destruct (flat_rows logits), (flat_rows labels),
    (last logits) as [[|]|], (last labels) as [[|]|]; apply _.
Defined.

(** [tf.nn.softmax_cross_entropy_with_logits(logits, labels)]: one value
    per position, the class dimension reduced away.  With an outer
    dimension unknown, as the batch dimension of a placeholder is, the
    flattened matrices have no static shape and nothing is compared when
    the graph is built; with the shapes known the rows and the classes of
    the two arguments must fit. *)
Definition softmax_cross_entropy_with_logits (logits labels : tensor)
    : Build tensor :=
  scope ← unique_name "softmax_cross_entropy_with_logits_sg";
  if decide (misfit (t_shape logits) (t_shape labels))
  then throw (ValueError "Dimensions must be equal")
  else
    let r := {| producer := scope; output_index := 0;
                t_dtype := t_dtype logits;
                t_shape := removelast (t_shape logits) |} in
    _ ← append_op {| name := scope;
                     kind := SoftmaxCrossEntropyWithLogits logits labels;
                     outputs := [r] |};
    mret r.

(** [tf.reduce_sum(input_tensor)] and [tf.reduce_mean(input_tensor)] over
    all dimensions.  (The cells call the first; the second is the reduction
    of the commented-out cell.) *)
Definition reduce_sum (input_tensor : tensor) : Build tensor :=
  scope ← unique_name "Sum";
  let r := {| producer := scope; output_index := 0;
              t_dtype := t_dtype input_tensor; t_shape := [] |} in
  _ ← append_op {| name := scope; kind := Sum input_tensor; outputs := [r] |};
  mret r.

Definition reduce_mean (input_tensor : tensor) : Build tensor :=
  scope ← unique_name "Mean";
  let r := {| producer := scope; output_index := 0;
              t_dtype := t_dtype input_tensor; t_shape := [] |} in
  _ ← append_op {| name := scope; kind := Mean input_tensor; outputs := [r] |};
  mret r.

(** *** Reading a graph *)

Definition op_inputs (k : op_kind) : list tensor :=
  match k with
  | Placeholder => []
  | VariableV2 => []
  | DynamicRNN cell x =>
      x :: match cell_weights cell with
           | Some (kernel, bias) => [kernel; bias]
           | None => []
           end
  | StridedSlice x _ => [x]
  | Dense x kernel bias _ => [x; kernel; bias]
  | SparseSoftmaxCrossEntropyWithLogits labels logits => [labels; logits]
  | SoftmaxCrossEntropyWithLogits logits labels => [logits; labels]
  | Sum x => [x]
  | Mean x => [x]
  | AdamMinimize _ loss var_list => loss :: var_list
  end.

Definition find_op (g : graph) (nm : op_name) : option operation :=
  list_find (λ o, name o = nm) (operations g) ≫= λ p, Some p.2.

(** The names of the nodes a set of names depends on.  The walk goes from
    the newest node to the oldest: a node only reads tensors that existed
    when it was created. *)
Fixpoint needed_after (newest_first : list operation) (needed : list op_name)
    : list op_name :=
  match newest_first with
  | [] => needed
  | o :: older =>
      if decide (name o ∈ needed)
      then needed_after older ((producer <$> op_inputs (kind o)) ++ needed)
      else needed_after older needed
  end.

(** The names of the nodes [t] is computed from, its own included. *)
Definition depends_on (g : graph) (t : tensor) : list op_name :=
  needed_after (reverse (operations g)) [producer t].

(** The shape a tensor takes when the placeholders are fed a batch of
    [batch] sequences. *)
Definition fed_shape (batch : nat) (t : tensor) : list nat :=
  default batch <$> t_shape t.

(** [tf.train.AdamOptimizer(learning_rate=0.001)] and its [minimize]: the
    gradients are taken with respect to the trainable variables of the
    graph; there must be variables, and the loss must depend on one at
    least. *)
Record AdamOptimizer : Type := { adam_learning_rate : Q }.

Definition AdamOptimizer_default : AdamOptimizer :=
  {| adam_learning_rate := 1 # 1000 |}.

Definition minimize (opt : AdamOptimizer) (loss : tensor) : Build op_name :=
  λ g,
  match variables g with
  | [] => (Raise (ValueError "No variables to optimize."), g)
  | _ :: _ =>
      match filter (λ v, producer v ∈ depends_on g loss) (variables g) with
      | [] =>
          (Raise (ValueError "No gradients provided for any variable, check your graph for ops that do not support gradients"), g)
      | reached =>
          (scope ← unique_name "Adam";
           _ ← append_op
                 {| name := scope;
                    kind := AdamMinimize (adam_learning_rate opt) loss reached;
                    outputs := [] |};
           mret scope) g
      end
  end.

End tf.

(** ** The interpreter's process-wide state and the monad of a cell *)

Record world : Type := {
  np_random : RandomKit.rk_state;
  tf_default_graph : tf.graph
}.

(** A statement runs on the process state and either returns or raises; the
    state survives an exception. *)
Definition Py (A : Type) : Type := world → result A * world.

#[global] Instance Py_ret : MRet Py := λ A a w, (Ok a, w).
#[global] Instance Py_bind : MBind Py := λ A B f m w,
  match m w with
  | (Ok a, w') => f a w'
  | (Raise e, w') => (Raise e, w')
  end.

Definition raise {A : Type} (e : exn) : Py A := λ w, (Raise e, w).

(** ** numpy *)

Module np.

(** A two-dimensional C-contiguous array: its shape and its buffer in
    row-major order. *)
Record ndarray (A : Type) : Type := {
  shape : nat * nat;
  buffer : list A
}.
Arguments shape {A} _.
Arguments buffer {A} _.
Arguments Build_ndarray {A} _ _.

(** [arr[i, t]] *)
Definition item {A : Type} (arr : ndarray A) (i t : nat) : option A :=
  if decide (i < (shape arr).1 ∧ t < (shape arr).2)%nat
  then buffer arr !! (i * (shape arr).2 + t)%nat
  else None.

(** [arr[i]] for a row [i] of the array (outside it numpy raises
    [IndexError]; the cells only read row [0] of arrays that have one). *)
Definition row {A : Type} (arr : ndarray A) (i : nat) : list A :=
  take (shape arr).2 (drop (i * (shape arr).2) (buffer arr)).

(** [np.random.seed(seed)] on the global generator. *)
Definition random_seed (seed : Z) : Py unit := λ w,
  if decide (seed > 4294967295 ∨ seed < 0)
  then (Raise (ValueError "Seed must be between 0 and 2**32 - 1"), w)
  else (Ok (), {| np_random := RandomKit.rk_seed seed (np_random w);
                  tf_default_graph := tf_default_graph w |}).

(** The largest value of numpy's index type [npy_intp], on a 64-bit
    build. *)
Definition NPY_MAX_INTP : Z := 9223372036854775807.

(** The loop of [PyArray_NewFromDescr] over the dimensions: [nbytes] starts
    as the item size and is multiplied by every dimension that is not
    zero; a negative dimension and a product beyond [npy_intp] are
    refused. *)
Fixpoint check_dims (nbytes : Z) (dims : list Z) : option exn :=
  match dims with
  | [] => None
  | d :: rest =>
      if decide (d = 0) then check_dims nbytes rest
      else if decide (d < 0)
      then Some (ValueError "negative dimensions are not allowed")
      else if decide (nbytes * d > NPY_MAX_INTP)
      then Some (ValueError "array is too big; `arr.size * arr.dtype.itemsize` is larger than the maximum possible size.")
      else check_dims (nbytes * d) rest
  end.

(** What numpy checks before it allocates a float64 array of shape [dims]:
    every dimension must convert to [npy_intp], then the loop above runs
    with an item size of eight bytes.  [None] when the shape is accepted. *)
Definition new_array_check (dims : list Z) : option exn :=
  if decide (Forall (λ d, - NPY_MAX_INTP - 1 ≤ d ≤ NPY_MAX_INTP) dims)
  then check_dims 8 dims
  else Some (ValueError "Maximum allowed dimension exceeded").

(** [np.random.rand(d0, d1)] on the global generator: the array is
    allocated, then filled in row-major order. *)
Definition random_rand (d0 d1 : Z) : Py (ndarray Q) := λ w,
  match new_array_check [d0; d1] with
  | Some e => (Raise e, w)
  | None =>
      let '(xs, st) :=
        RandomKit.rk_fill (Z.to_nat d0 * Z.to_nat d1) (np_random w) in
      (Ok {| shape := (Z.to_nat d0, Z.to_nat d1); buffer := xs |},
       {| np_random := st; tf_default_graph := tf_default_graph w |})
  end.

(** [np.zeros((d0, d1))] *)
Definition zeros (d0 d1 : Z) : Py (ndarray Q) :=
  match new_array_check [d0; d1] with
  | Some e => raise e
  | None => mret {| shape := (Z.to_nat d0, Z.to_nat d1);
                    buffer := replicate (Z.to_nat d0 * Z.to_nat d1) 0%Q |}
  end.

(** [x > y] on floats. *)
Definition gt (x y : Q) : bool := negb (Qle_bool x y).

(** [arr > y], elementwise. *)
Definition greater (arr : ndarray Q) (y : Q) : ndarray bool :=
  {| shape := shape arr; buffer := (λ x, gt x y) <$> buffer arr |}.

(** The flat positions, from [k] on, of the true entries. *)
Fixpoint flatnonzero (k : nat) (l : list bool) : list nat :=
  match l with
  | [] => []
  | b :: l' => if b then k :: flatnonzero (S k) l' else flatnonzero (S k) l'
  end.

(** [np.where(cond)]: the row indices and the column indices of the true
    entries, in row-major order. *)
Definition where_ (cond : ndarray bool) : list nat * list nat :=
  let hits := flatnonzero 0 (buffer cond) in
  ((λ k, k `div` (shape cond).2)%nat <$> hits,
   (λ k, k `mod` (shape cond).2)%nat <$> hits).

(** [arr[(rows, cols)] = v]; the index pairs come from [where_] on an array
    of the same shape, so none is out of range. *)
Definition setitem {A : Type} (arr : ndarray A) (idx : list nat * list nat)
    (v : A) : ndarray A :=
  {| shape := shape arr;
     buffer := foldl (λ buf rc, <[(rc.1 * (shape arr).2 + rc.2)%nat := v]> buf)
                     (buffer arr) (zip idx.1 idx.2) |}.

End np.

(** ** The notebook's cells *)

Module Notebook.

(** A graph-building call runs on the default graph of the process. *)
Definition on_default_graph {A : Type} (b : tf.Build A) : Py A := λ w,
  let '(r, g) := b (tf_default_graph w) in
  (r, {| np_random := np_random w; tf_default_graph := g |}).

(** Cell 3. *)
Definition reset_graph (seed : Z) : Py unit :=
  _ ← on_default_graph tf.reset_default_graph;
  _ ← on_default_graph (tf.set_random_seed seed);
  np.random_seed seed.

(** Cell 4, with its three literals ([1000], [10], [20]) as arguments. *)
Definition generate (batch_size seq_len seed : Z)
    : Py (np.ndarray Q * np.ndarray Q) :=
  _ ← np.random_seed seed;
  data ← np.random_rand batch_size seq_len;
  labels ← np.zeros batch_size seq_len;
  let labels := np.setitem labels (np.where_ (np.greater data (1 # 2))) 1%Q in
  mret (data, labels).

(** Cell 4 as it stands; it prints [data[0]] and [labels[0]]. *)
Definition cell_4 : Py (list Q * list Q) :=
  dl ← generate 1000 10 20;
  mret (np.row dl.1 0, np.row dl.2 0).

(** Cell 6. *)
Record hyperparameters : Type := {
  n_steps : nat;
  n_inputs : nat;
  n_neurons : nat;
  n_outputs : nat;
  learning_rate : Q
}.

Definition cell_6 : hyperparameters :=
  {| n_steps := 10; n_inputs := 1; n_neurons := 7; n_outputs := 10;
     learning_rate := 1 # 1000 |}.

(** [range(lo, hi)] *)
Definition range (lo hi : Z) : list Z :=
  (λ k, lo + Z.of_nat k) <$> seq 0 (Z.to_nat (hi - lo)).

(** The three names the loop of cell 8 binds. *)
Record loop_vars : Type := {
  curr_state : tf.tensor;
  logits : tf.tensor;
  xentropy : tf.tensor
}.

Definition loop_body (hp : hyperparameters) (rnn_outputs states y : tf.tensor)
    (i : Z) : tf.Build loop_vars :=
  curr_state ← tf.strided_slice rnn_outputs i;
  logits ← tf.layers_dense states (n_outputs hp);
  xentropy ← tf.sparse_softmax_cross_entropy_with_logits y logits;
  mret {| curr_state := curr_state; logits := logits; xentropy := xentropy |}.

(** [for i in iterations: body(i)]; the names keep their last binding. *)
Fixpoint for_in (iterations : list Z) (body : Z → tf.Build loop_vars)
    (bound : option loop_vars) : tf.Build (option loop_vars) :=
  match iterations with
  | [] => mret bound
  | i :: rest => v ← body i; for_in rest body (Some v)
  end.

(** The names bound when cell 8 ends. *)
Record namespace : Type := {
  X : tf.tensor;
  y : tf.tensor;
  cell : tf.BasicRNNCell;
  rnn_outputs : tf.tensor;
  states : tf.tensor;
  loop : option loop_vars;
  cross_entropy : tf.tensor;
  optimizer : tf.AdamOptimizer;
  minimize : tf.op_name
}.

(** The statements of cell 8 after [reset_graph()], with the iterations of
    its [for] loop as an argument.  Both calls of [dynamic_rnn] get the one
    object [cell]. *)
Definition model (hp : hyperparameters) (iterations : list Z)
    : tf.Build namespace :=
  X ← tf.placeholder tf.float32 [None; Some (n_steps hp); Some (n_inputs hp)];
  y ← tf.placeholder tf.float32 [None; Some (n_steps hp); Some (n_outputs hp)];
  let cell := {| tf.num_units := n_neurons hp; tf.cell_activation := tf.relu;
                 tf.cell_weights := None |} in
  r1 ← tf.dynamic_rnn cell X tf.float32;
  let cell := r1.2 in
  r2 ← tf.dynamic_rnn cell X tf.float32;
  let rnn_outputs := r2.1.1 in
  let states := r2.1.2 in
  let cell := r2.2 in
  loop ← for_in iterations (loop_body hp rnn_outputs states y) None;
  cross_entropy ← tf.softmax_cross_entropy_with_logits rnn_outputs y;
  cross_entropy ← tf.reduce_sum cross_entropy;
  let optimizer := tf.AdamOptimizer_default in
  minimize ← tf.minimize optimizer cross_entropy;
  mret {| X := X; y := y; cell := cell; rnn_outputs := rnn_outputs;
          states := states; loop := loop; cross_entropy := cross_entropy;
          optimizer := optimizer; minimize := minimize |}.

(** Cell 8: [for i in range(0,10)]. *)
Definition cell_8 (hp : hyperparameters) : Py namespace :=
  _ ← reset_graph 42;
  on_default_graph (model hp (range 0 10)).

(** Cell 8 with its [for] loop deleted. *)
Definition cell_8_without_loop (hp : hyperparameters) : Py namespace :=
  _ ← reset_graph 42;
  on_default_graph (model hp []).

(** *** Vocabulary for the properties *)

(** What the data cell stores for a value: [1] above one half, [0]
    otherwise. *)
Definition threshold (x : Q) : Q := if np.gt x (1 # 2) then 1%Q else 0%Q.

(** The generator of the process is a well-formed [rk_state]. *)
Definition world_wf (w : world) : Prop := RandomKit.rk_wf (np_random w).

(** A process whose generator was last seeded with [seed] and whose default
    graph is empty. *)
Definition seeded_world (seed : Z) : world :=
  {| np_random :=
       RandomKit.rk_seed seed
         {| RandomKit.key := replicate RandomKit.RK_STATE_LEN 0;
            RandomKit.pos := RandomKit.RK_STATE_LEN;
            RandomKit.has_gauss := false;
            RandomKit.gauss := 0%Q;
            RandomKit.has_binomial := false |};
     tf_default_graph := tf.empty_graph |}.

(** The two lines cell 4 printed, as the notebook stores them. *)
Definition printed_data_0 : list Q :=
  [0.5881308; 0.89771373; 0.89153073; 0.81583748; 0.03588959; 0.69175758;
   0.37868094; 0.51851095; 0.65795147; 0.19385022]%Q.

Definition printed_labels_0 : list Q := [1; 1; 1; 1; 0; 1; 0; 1; 1; 0]%Q.

(** The same values at three decimals. *)
Definition rounded_data_0 : list Q :=
  [0.588; 0.898; 0.892; 0.816; 0.036; 0.692; 0.379; 0.519; 0.658; 0.194]%Q.

(** [xs] and [ys] agree entry by entry up to [eps]. *)
Definition close_to (eps : Q) (xs ys : list Q) : Prop :=
  Forall2 (λ x y, (Qabs (x - y) <= eps)%Q) xs ys.

(** The sizes numpy accepts for a float64 array of two dimensions: none
    negative, and at most [NPY_MAX_INTP] bytes, a dimension of zero counting
    as one. *)
Definition sizes_accepted (d0 d1 : Z) : Prop :=
  0 ≤ d0 ∧ 0 ≤ d1 ∧ 8 * Z.max d0 1 * Z.max d1 1 ≤ np.NPY_MAX_INTP.

(** The default graph after [reset_graph(seed)]. *)
Definition fresh_graph (seed : Z) : tf.graph :=
  {| tf.operations := []; tf.names_in_use := ∅; tf.graph_seed := Some seed;
     tf.variables := [] |}.

(** The hyperparameters with another learning rate. *)
Definition with_learning_rate (lr : Q) (hp : hyperparameters) : hyperparameters :=
  {| n_steps := n_steps hp; n_inputs := n_inputs hp; n_neurons := n_neurons hp;
     n_outputs := n_outputs hp; learning_rate := lr |}.

(** [g] with the name [nm] taken for the first time, with one more node,
    with one more variable. *)
Definition mark (nm : string) (g : tf.graph) : tf.graph :=
  {| tf.operations := tf.operations g;
     tf.names_in_use := <[tf.lower nm := 1%nat]> (tf.names_in_use g);
     tf.graph_seed := tf.graph_seed g;
     tf.variables := tf.variables g |}.

Definition with_op (o : tf.operation) (g : tf.graph) : tf.graph :=
  {| tf.operations := tf.operations g ++ [o];
     tf.names_in_use := tf.names_in_use g;
     tf.graph_seed := tf.graph_seed g;
     tf.variables := tf.variables g |}.

Definition with_variable (v : tf.tensor) (g : tf.graph) : tf.graph :=
  {| tf.operations :=
       tf.operations g ++ [{| tf.name := tf.producer v; tf.kind := tf.VariableV2;
                              tf.outputs := [v] |}];
     tf.names_in_use := tf.names_in_use g;
     tf.graph_seed := tf.graph_seed g;
     tf.variables := tf.variables g ++ [v] |}.

(** The statements of cell 8 before its loop, and those after it. *)
Definition prologue (hp : hyperparameters)
    : tf.Build (tf.tensor * tf.tensor * tf.tensor * tf.tensor * tf.BasicRNNCell) :=
  X ← tf.placeholder tf.float32 [None; Some (n_steps hp); Some (n_inputs hp)];
  y ← tf.placeholder tf.float32 [None; Some (n_steps hp); Some (n_outputs hp)];
  let cell := {| tf.num_units := n_neurons hp; tf.cell_activation := tf.relu;
                 tf.cell_weights := None |} in
  r1 ← tf.dynamic_rnn cell X tf.float32;
  r2 ← tf.dynamic_rnn r1.2 X tf.float32;
  mret (X, y, r2.1.1, r2.1.2, r2.2).

Definition epilogue (rnn_outputs y : tf.tensor) : tf.Build (tf.tensor * tf.op_name) :=
  cross_entropy ← tf.softmax_cross_entropy_with_logits rnn_outputs y;
  cross_entropy ← tf.reduce_sum cross_entropy;
  minimize ← tf.minimize tf.AdamOptimizer_default cross_entropy;
  mret (cross_entropy, minimize).

(** *** The graph of cell 8, written out *)

(** The tensors cell 8 binds before its loop, when it starts from an empty
    graph. *)
Definition X_tensor (hp : hyperparameters) : tf.tensor :=
  {| tf.producer := "Placeholder"; tf.output_index := 0;
     tf.t_dtype := tf.float32;
     tf.t_shape := [None; Some (n_steps hp); Some (n_inputs hp)] |}.

Definition y_tensor (hp : hyperparameters) : tf.tensor :=
  {| tf.producer := "Placeholder_1"; tf.output_index := 0;
     tf.t_dtype := tf.float32;
     tf.t_shape := [None; Some (n_steps hp); Some (n_outputs hp)] |}.

Definition kernel_tensor (hp : hyperparameters) : tf.tensor :=
  {| tf.producer := "rnn/basic_rnn_cell/kernel"; tf.output_index := 0;
     tf.t_dtype := tf.float32;
     tf.t_shape := [Some (n_inputs hp + n_neurons hp)%nat; Some (n_neurons hp)] |}.

Definition bias_tensor (hp : hyperparameters) : tf.tensor :=
  {| tf.producer := "rnn/basic_rnn_cell/bias"; tf.output_index := 0;
     tf.t_dtype := tf.float32;
     tf.t_shape := [Some (n_neurons hp)] |}.

Definition rnn_cell (hp : hyperparameters) : tf.BasicRNNCell :=
  {| tf.num_units := n_neurons hp; tf.cell_activation := tf.relu;
     tf.cell_weights := Some (kernel_tensor hp, bias_tensor hp) |}.

Definition rnn_tensors (scope : string) (hp : hyperparameters)
    : tf.tensor * tf.tensor :=
  ({| tf.producer := scope; tf.output_index := 0; tf.t_dtype := tf.float32;
      tf.t_shape := [None; Some (n_steps hp); Some (n_neurons hp)] |},
   {| tf.producer := scope; tf.output_index := 1; tf.t_dtype := tf.float32;
      tf.t_shape := [None; Some (n_neurons hp)] |}).

Definition rnn_outputs_tensor (hp : hyperparameters) : tf.tensor :=
  (rnn_tensors "rnn_1" hp).1.

Definition states_tensor (hp : hyperparameters) : tf.tensor :=
  (rnn_tensors "rnn_1" hp).2.

Definition rnn_op (scope : string) (hp : hyperparameters) : tf.operation :=
  {| tf.name := scope;
     tf.kind := tf.DynamicRNN (rnn_cell hp) (X_tensor hp);
     tf.outputs := [(rnn_tensors scope hp).1; (rnn_tensors scope hp).2] |}.

Definition variable_op (v : tf.tensor) : tf.operation :=
  {| tf.name := tf.producer v; tf.kind := tf.VariableV2; tf.outputs := [v] |}.

Definition prologue_ops (hp : hyperparameters) : list tf.operation :=
  [ {| tf.name := "Placeholder"; tf.kind := tf.Placeholder;
       tf.outputs := [X_tensor hp] |};
    {| tf.name := "Placeholder_1"; tf.kind := tf.Placeholder;
       tf.outputs := [y_tensor hp] |};
    variable_op (kernel_tensor hp);
    variable_op (bias_tensor hp);
    rnn_op "rnn" hp;
    rnn_op "rnn_1" hp ].

(** The default graph when the loop of cell 8 starts. *)
Definition declared (hp : hyperparameters) : tf.graph :=
  {| tf.operations := prologue_ops hp;
     tf.names_in_use :=
       <["rnn_1" := 1%nat]> (<["rnn" := 2%nat]>
         (<["placeholder_1" := 1%nat]> (<["placeholder" := 2%nat]> ∅)));
     tf.graph_seed := Some 42;
     tf.variables := [kernel_tensor hp; bias_tensor hp] |}.

(** What the first iteration of the loop creates before it stops. *)
Definition curr_state_tensor (hp : hyperparameters) : tf.tensor :=
  {| tf.producer := "strided_slice"; tf.output_index := 0;
     tf.t_dtype := tf.float32;
     tf.t_shape := [None; Some (n_neurons hp)] |}.

Definition dense_kernel (hp : hyperparameters) : tf.tensor :=
  {| tf.producer := "dense/kernel"; tf.output_index := 0;
     tf.t_dtype := tf.float32;
     tf.t_shape := [Some (n_neurons hp); Some (n_outputs hp)] |}.

Definition dense_bias (hp : hyperparameters) : tf.tensor :=
  {| tf.producer := "dense/bias"; tf.output_index := 0;
     tf.t_dtype := tf.float32;
     tf.t_shape := [Some (n_outputs hp)] |}.

Definition logits_tensor (hp : hyperparameters) : tf.tensor :=
  {| tf.producer := "dense"; tf.output_index := 0;
     tf.t_dtype := tf.float32;
     tf.t_shape := [None; Some (n_outputs hp)] |}.

Definition first_iteration_ops (hp : hyperparameters) (i : Z)
    : list tf.operation :=
  [ {| tf.name := "strided_slice";
       tf.kind := tf.StridedSlice (rnn_outputs_tensor hp) i;
       tf.outputs := [curr_state_tensor hp] |};
    variable_op (dense_kernel hp);
    variable_op (dense_bias hp);
    {| tf.name := "dense";
       tf.kind := tf.Dense (states_tensor hp) (dense_kernel hp) (dense_bias hp)
                    (n_outputs hp);
       tf.outputs := [logits_tensor hp] |} ].

(** The messages of the two errors the loop can stop with. *)
Definition slice_message (i : Z) : string :=
  "slice index " +:+ pretty i +:+ " of dimension 1 out of bounds.".

Definition rank_message : string :=
  "Rank mismatch: Rank of labels (received 3) should equal rank of logits minus 1 (received 2).".

(** The default graph when the first iteration has stopped: at the slice,
    or at the cross-entropy. *)
Definition stopped_at_slice (hp : hyperparameters) : tf.graph :=
  mark "strided_slice" (declared hp).

Definition stopped_at_xentropy (hp : hyperparameters) (i : Z) : tf.graph :=
  mark "SparseSoftmaxCrossEntropyWithLogits"
    (with_op {| tf.name := "dense";
                tf.kind := tf.Dense (states_tensor hp) (dense_kernel hp)
                             (dense_bias hp) (n_outputs hp);
                tf.outputs := [logits_tensor hp] |}
       (with_variable (dense_bias hp)
          (with_variable (dense_kernel hp)
             (mark "dense"
                (with_op {| tf.name := "strided_slice";
                            tf.kind := tf.StridedSlice (rnn_outputs_tensor hp) i;
                            tf.outputs := [curr_state_tensor hp] |}
                   (mark "strided_slice" (declared hp))))))).

(** What the statements after the loop create. *)
Definition per_position_tensor (hp : hyperparameters) : tf.tensor :=
  {| tf.producer := "softmax_cross_entropy_with_logits_sg";
     tf.output_index := 0; tf.t_dtype := tf.float32;
     tf.t_shape := [None; Some (n_steps hp)] |}.

Definition loss_tensor : tf.tensor :=
  {| tf.producer := "Sum"; tf.output_index := 0; tf.t_dtype := tf.float32;
     tf.t_shape := [] |}.

Definition epilogue_ops (hp : hyperparameters) : list tf.operation :=
  [ {| tf.name := "softmax_cross_entropy_with_logits_sg";
       tf.kind := tf.SoftmaxCrossEntropyWithLogits (rnn_outputs_tensor hp)
                    (y_tensor hp);
       tf.outputs := [per_position_tensor hp] |};
    {| tf.name := "Sum"; tf.kind := tf.Sum (per_position_tensor hp);
       tf.outputs := [loss_tensor] |};
    {| tf.name := "Adam";
       tf.kind := tf.AdamMinimize (1 # 1000) loss_tensor
                    [kernel_tensor hp; bias_tensor hp];
       tf.outputs := [] |} ].

(** The default graph when cell 8 with its loop deleted ends. *)
Definition built (hp : hyperparameters) : tf.graph :=
  with_op {| tf.name := "Adam";
             tf.kind := tf.AdamMinimize (1 # 1000) loss_tensor
                          [kernel_tensor hp; bias_tensor hp];
             tf.outputs := [] |}
    (mark "Adam"
       (with_op {| tf.name := "Sum"; tf.kind := tf.Sum (per_position_tensor hp);
                   tf.outputs := [loss_tensor] |}
          (mark "Sum"
             (with_op {| tf.name := "softmax_cross_entropy_with_logits_sg";
                         tf.kind := tf.SoftmaxCrossEntropyWithLogits
                                      (rnn_outputs_tensor hp) (y_tensor hp);
                         tf.outputs := [per_position_tensor hp] |}
                (mark "softmax_cross_entropy_with_logits_sg" (declared hp)))))).

(** The names cell 8 binds when its loop is deleted. *)
Definition bound (hp : hyperparameters) : namespace :=
  {| X := X_tensor hp; y := y_tensor hp; cell := rnn_cell hp;
     rnn_outputs := rnn_outputs_tensor hp; states := states_tensor hp;
     loop := None; cross_entropy := loss_tensor;
     optimizer := tf.AdamOptimizer_default; minimize := "Adam" |}.

(** Hyperparameters that are sizes: none is zero. *)
Definition positive_sizes (hp : hyperparameters) : Prop :=
  (0 < n_steps hp)%nat ∧ (0 < n_inputs hp)%nat ∧ (0 < n_neurons hp)%nat ∧
  (0 < n_outputs hp)%nat.

(** The kinds of node that make a loss: a cross-entropy, a reduction, a
    training operation. *)
Definition loss_kind (k : tf.op_kind) : Prop :=
  match k with
  | tf.SparseSoftmaxCrossEntropyWithLogits _ _
  | tf.SoftmaxCrossEntropyWithLogits _ _
  | tf.Sum _ | tf.Mean _ | tf.AdamMinimize _ _ _ => True
  | _ => False
  end.

End Notebook.

(** * Properties of the generator *)

Module RandomKitFacts.
Import RandomKit.

#[local] Arguments rk_gen : simpl never.
#[local] Arguments seed_loop : simpl never.
#[local] Arguments for_range : simpl never.

(** *** Words stay words *)

Lemma word_bits x : word x ↔ 0 ≤ x ∧ ∀ i, 32 ≤ i → Z.testbit x i = false.
Proof.
  unfold word. split.
  - intros [H0 H1]. split; [done|]. intros i Hi.
    destruct (decide (x = 0)) as [->|Hx]; [apply Z.bits_0|].
    apply Z.bits_above_log2; [done|].
    assert (Z.log2 x < 32) by (apply Z.log2_lt_pow2; lia). lia.
  - intros [H0 Hb]. split; [done|].
    destruct (decide (x = 0)) as [->|Hx]; [lia|].
    apply (Z.log2_lt_pow2 x 32); [lia|].
    destruct (Z_lt_le_dec (Z.log2 x) 32) as [|Hge]; [done|].
    specialize (Hb (Z.log2 x) Hge).
    rewrite Z.bit_log2 in Hb by lia. done.
Qed.

Lemma word_lxor a b : word a → word b → word (Z.lxor a b).
Proof.
  rewrite !word_bits. intros [Ha Ha'] [Hb Hb']. split.
  - by apply Z.lxor_nonneg.
  - intros i Hi. by rewrite Z.lxor_spec, Ha', Hb'.
Qed.

Lemma word_lor a b : word a → word b → word (Z.lor a b).
Proof.
  rewrite !word_bits. intros [Ha Ha'] [Hb Hb']. split.
  - by apply Z.lor_nonneg.
  - intros i Hi. by rewrite Z.lor_spec, Ha', Hb'.
Qed.

Lemma word_land_r a m : word m → word (Z.land a m).
Proof.
  rewrite !word_bits. intros [Hm Hm']. split.
  - apply Z.land_nonneg. by right.
  - intros i Hi. rewrite Z.land_spec, Hm' by done. apply andb_false_r.
Qed.

Lemma word_shiftr a n : 0 ≤ n → word a → word (Z.shiftr a n).
Proof.
  rewrite !word_bits. intros Hn [Ha Ha']. split.
  - by apply Z.shiftr_nonneg.
  - intros i Hi. rewrite Z.shiftr_spec by lia. apply Ha'. lia.
Qed.

Lemma word_twist a b c : word c → word (twist a b c).
Proof.
  intros Hc. unfold twist.
  assert (word (Z.lor (Z.land a UPPER_MASK) (Z.land b LOWER_MASK))).
  { apply word_lor; apply word_land_r; unfold word, UPPER_MASK, LOWER_MASK; lia. }
  set (y := Z.lor _ _) in *.
  apply word_lxor; [apply word_lxor; [done|by apply word_shiftr]|].
  apply word_land_r. unfold word, MATRIX_A. lia.
Qed.

Lemma word_temper y : word y → word (temper y).
Proof.
  intros Hy. unfold temper.
  assert (Hx : ∀ a b, word a → word b → word (Z.lxor a b))
    by apply word_lxor.
  assert (Hm : ∀ a m, word m → word (Z.land a m)) by apply word_land_r.
  assert (H7 : word 0x9d2c5680) by (unfold word; lia).
  assert (H15 : word 0xefc60000) by (unfold word; lia).
  cbv zeta.
  set (y1 := Z.lxor y (Z.shiftr y 11)).
  assert (word y1) by (apply Hx; [done|by apply word_shiftr]).
  set (y2 := Z.lxor y1 _). assert (word y2) by (apply Hx; auto).
  set (y3 := Z.lxor y2 _). assert (word y3) by (apply Hx; auto).
  apply Hx; [done|by apply word_shiftr].
Qed.

Lemma key_at_word k i : key_ok k → word (key_at k i).
Proof.
  intros Hk. unfold key_at. destruct (k !! i) as [x|] eqn:E; simpl.
  - by eapply Forall_lookup_1.
  - unfold word. lia.
Qed.

Lemma for_range_inv (P : list Z → Prop) lo len body k :
  (∀ i k, P k → P (body i k)) → P k → P (for_range lo len body k).
Proof.
  intros Hbody. unfold for_range. revert k.
  induction (seq lo len) as [|i l IH]; intros k Hk; simpl; [done|].
  apply IH. by apply Hbody.
Qed.

Lemma twist_step_ok k i a b c :
  key_ok k → key_ok (<[i := twist (key_at k a) (key_at k b) (key_at k c)]> k).
Proof.
  intros Hk. apply Forall_insert; [done|].
  by apply word_twist, key_at_word.
Qed.

Lemma rk_gen_inv (P : list Z → Prop) k :
  (∀ k' i a b c,
     P k' → P (<[i := twist (key_at k' a) (key_at k' b) (key_at k' c)]> k')) →
  P k → P (rk_gen k).
Proof.
  intros Hstep Hk. unfold rk_gen. cbv zeta.
  apply Hstep.
  apply (for_range_inv P); [intros i k' Hk'; cbv beta; by apply Hstep|].
  apply (for_range_inv P); [intros i k' Hk'; cbv beta; by apply Hstep|].
  exact Hk.
Qed.

Lemma rk_gen_ok k : key_ok k → key_ok (rk_gen k).
Proof.
  apply (rk_gen_inv key_ok). intros. by apply twist_step_ok.
Qed.

Lemma rk_gen_length k : length (rk_gen k) = length k.
Proof.
  apply (rk_gen_inv (λ k', length k' = length k)); [|reflexivity].
  intros k' i a b c Hk'. rewrite length_insert. exact Hk'.
Qed.

Lemma rk_random_ok st :
  key_ok (key st) → word (rk_random st).1 ∧ key_ok (key (rk_random st).2).
Proof.
  intros Hk. unfold rk_random.
  destruct (decide (pos st = RK_STATE_LEN)); cbn [fst snd key].
  - split; [apply word_temper, key_at_word|]; by apply rk_gen_ok.
  - split; [by apply word_temper, key_at_word|exact Hk].
Qed.

Lemma rk_random_wf st : rk_wf st → rk_wf (rk_random st).2.
Proof.
  unfold rk_wf, rk_random. intros Hst.
  destruct (decide (pos st = RK_STATE_LEN)); cbn [snd key]; [|exact Hst].
  rewrite rk_gen_length. exact Hst.
Qed.

(** *** Seeding overwrites the whole key *)

Lemma seed_loop_S n p s k :
  seed_loop (S n) p s k =
  seed_loop n (S p)
    (Z.land (1812433253 * Z.lxor s (Z.shiftr s 30) + Z.of_nat p + 1) 0xffffffff)
    (<[p := s]> k).
Proof. reflexivity. Qed.

Lemma seed_loop_length n p s k : length (seed_loop n p s k) = length k.
Proof.
  revert p s k. induction n as [|n IH]; intros p s k; [done|].
  rewrite seed_loop_S, IH. apply length_insert.
Qed.

Lemma take_S_insert {A} (l : list A) p x :
  (p < length l)%nat → take (S p) (<[p := x]> l) = take p l ++ [x].
Proof.
  intros Hp.
  assert (Hl : <[p := x]> l !! p = Some x) by by apply list_lookup_insert_eq.
  rewrite (take_S_r _ _ _ Hl). by rewrite take_insert_ge.
Qed.

Lemma seed_loop_ext n p s k1 k2 :
  length k1 = length k2 → (p + n)%nat = length k1 → take p k1 = take p k2 →
  seed_loop n p s k1 = seed_loop n p s k2.
Proof.
  revert p s k1 k2. induction n as [|n IH]; intros p s k1 k2 Hlen Hp Htake.
  - unfold seed_loop.
    rewrite <-(firstn_all k1), <-(firstn_all k2), <-Hlen, <-Hp.
    by replace (p + 0)%nat with p by lia.
  - rewrite !seed_loop_S. apply IH.
    + by rewrite !length_insert.
    + rewrite length_insert. lia.
    + rewrite !take_S_insert by lia. by rewrite Htake.
Qed.

Lemma seed_loop_ok n p s k :
  word s → (p + n)%nat = length k → Forall word (take p k) →
  key_ok (seed_loop n p s k).
Proof.
  revert p s k. induction n as [|n IH]; intros p s k Hs Hp Htake.
  - unfold seed_loop, key_ok.
    rewrite <-(firstn_all k), <-Hp. by replace (p + 0)%nat with p by lia.
  - rewrite seed_loop_S. apply IH.
    + apply word_land_r. unfold word. lia.
    + rewrite length_insert. lia.
    + rewrite take_S_insert by lia. apply Forall_app. split; [done|].
      by apply Forall_singleton.
Qed.

Lemma rk_seed_wf seed st : rk_wf st → rk_wf (rk_seed seed st).
Proof. unfold rk_wf, rk_seed. cbn [key]. by rewrite seed_loop_length. Qed.

Lemma rk_seed_ok seed st : rk_wf st → key_ok (key (rk_seed seed st)).
Proof.
  intros Hst. unfold rk_seed. cbn [key]. apply seed_loop_ok.
  - apply word_land_r. unfold word. lia.
  - by rewrite Hst.
  - rewrite take_0. constructor.
Qed.

(** Seeding erases the past: the seeded state is a function of the seed. *)
Lemma rk_seed_ext seed st1 st2 :
  rk_wf st1 → rk_wf st2 → rk_seed seed st1 = rk_seed seed st2.
Proof.
  intros H1 H2. unfold rk_seed. f_equal.
  apply seed_loop_ext; [by rewrite H1, H2|by rewrite H1|by rewrite !take_0].
Qed.

(** *** The doubles *)

Lemma double_of_words_eq w1 w2 :
  (double_of_words w1 w2 ==
   (Z.shiftr w1 5 * 67108864 + Z.shiftr w2 6) # 9007199254740992)%Q.
Proof.
  unfold double_of_words, Qeq, Qdiv, Qmult, Qplus, Qinv, inject_Z.
  cbn [Qnum Qden]. lia.
Qed.

Lemma shiftr5_word w : word w → 0 ≤ Z.shiftr w 5 < 134217728.
Proof.
  unfold word. intros Hw. rewrite Z.shiftr_div_pow2 by lia.
  change (2 ^ 5) with 32. split.
  - apply Z.div_pos; lia.
  - apply Z.div_lt_upper_bound; lia.
Qed.

Lemma shiftr6_word w : word w → 0 ≤ Z.shiftr w 6 < 67108864.
Proof.
  unfold word. intros Hw. rewrite Z.shiftr_div_pow2 by lia.
  change (2 ^ 6) with 64. split.
  - apply Z.div_pos; lia.
  - apply Z.div_lt_upper_bound; lia.
Qed.

Lemma double_of_words_unit w1 w2 :
  word w1 → word w2 → unit_interval (double_of_words w1 w2).
Proof.
  intros H1%shiftr5_word H2%shiftr6_word.
  unfold unit_interval. rewrite double_of_words_eq.
  unfold Qle, Qlt. cbn [Qnum Qden]. lia.
Qed.

Lemma rk_seed_good seed st : rk_wf st → rk_good (rk_seed seed st).
Proof. intros. split; [by apply rk_seed_wf|by apply rk_seed_ok]. Qed.

Lemma rk_random_good st :
  rk_good st → word (rk_random st).1 ∧ rk_good (rk_random st).2.
Proof.
  intros [Hwf Hok]. destruct (rk_random_ok st Hok) as [Hw Hk].
  split; [done|]. split; [by apply rk_random_wf|done].
Qed.

Lemma rk_double_good st :
  rk_good st → unit_interval (rk_double st).1 ∧ rk_good (rk_double st).2.
Proof.
  intros Hst. unfold rk_double.
  destruct (rk_random_good st Hst) as [Hw1 Hst1].
  destruct (rk_random st) as [w1 st1]. cbn [fst snd] in *.
  destruct (rk_random_good st1 Hst1) as [Hw2 Hst2].
  destruct (rk_random st1) as [w2 st2]. cbn [fst snd] in *.
  split; [by apply double_of_words_unit|done].
Qed.

Lemma rk_fill_S n st :
  rk_fill (S n) st =
  ((rk_double st).1 :: (rk_fill n (rk_double st).2).1,
   (rk_fill n (rk_double st).2).2).
Proof.
  cbn [rk_fill]. destruct (rk_double st) as [x st1]. cbn [fst snd].
  by destruct (rk_fill n st1).
Qed.

Lemma rk_fill_length n st : length (rk_fill n st).1 = n.
Proof.
  revert st. induction n as [|n IH]; intros st; [done|].
  rewrite rk_fill_S. cbn [fst length]. by rewrite IH.
Qed.

Lemma rk_fill_good n st :
  rk_good st →
  Forall unit_interval (rk_fill n st).1 ∧ rk_good (rk_fill n st).2.
Proof.
  revert st. induction n as [|n IH]; intros st Hst.
  - split; [constructor|done].
  - rewrite rk_fill_S. cbn [fst snd].
    destruct (rk_double_good st Hst) as [Hx Hst'].
    destruct (IH _ Hst') as [Hxs Hst'']. split; [by constructor|done].
Qed.

(** *** The stream of words behind the doubles *)

Lemma rk_fill_words n st : (rk_fill n st).1 = pair_up (rk_words (2 * n) st).
Proof.
  revert st. induction n as [|n IH]; intros st; [done|].
  rewrite rk_fill_S. cbn [fst].
  replace (2 * S n)%nat with (S (S (2 * n))) by lia.
  cbn [rk_words pair_up]. rewrite IH. unfold rk_double.
  destruct (rk_random st) as [w1 st1]. cbn [fst snd].
  by destruct (rk_random st1) as [w2 st2].
Qed.

Lemma rk_words_word n st : rk_good st → Forall word (rk_words n st).
Proof.
  revert st. induction n as [|n IH]; intros st Hst; [constructor|].
  destruct (rk_random_good st Hst) as [Hw Hst'].
  cbn [rk_words]. constructor; [done|by apply IH].
Qed.

Lemma pair_up_lookup ws j :
  (2 * j + 1 < length ws)%nat →
  ∃ w1 w2, ws !! (2 * j)%nat = Some w1 ∧ ws !! (2 * j + 1)%nat = Some w2 ∧
           pair_up ws !! j = Some (double_of_words w1 w2).
Proof.
  revert ws. induction j as [|j IH]; intros ws Hlen.
  - destruct ws as [|w1 [|w2 rest]]; cbn [length] in Hlen; try lia.
    by exists w1, w2.
  - destruct ws as [|w1 [|w2 rest]]; cbn [length] in Hlen; try lia.
    destruct (IH rest) as (a & b & Ha & Hb & Hp); [lia|].
    exists a, b.
    replace (2 * S j)%nat with (S (S (2 * j))) by lia.
    replace (S (S (2 * j)) + 1)%nat with (S (S (2 * j + 1))) by lia.
    done.
Qed.

Lemma rk_words_length n st : length (rk_words n st) = n.
Proof.
  revert st. induction n as [|n IH]; intros st; [done|].
  cbn [rk_words length]. by rewrite IH.
Qed.

(** *** Every double of the grid has the same number of word pairs

    [double_of_words] drops the low 5 bits of the first word and the low 6
    bits of the second, and what is left is the numerator: the pairs of
    words that give [k / 2^53] are the [32 * 64] pairs
    [(32 * (k / 2^26) + r1, 64 * (k mod 2^26) + r2)], whatever [k] is. *)
Lemma double_of_words_fibre w1 w2 k :
  word w1 → word w2 → 0 ≤ k < 9007199254740992 →
  (double_of_words w1 w2 == k # 9007199254740992)%Q ↔ words_of_double k w1 w2.
Proof.
  intros Hw1 Hw2 Hk. unfold words_of_double.
  pose proof (shiftr5_word w1 Hw1) as Ha.
  pose proof (shiftr6_word w2 Hw2) as Hb.
  rewrite double_of_words_eq. unfold Qeq. cbn [Qnum Qden].
  rewrite !Z.shiftr_div_pow2 in * by lia.
  change (2 ^ 5) with 32 in *. change (2 ^ 6) with 64 in *.
  split.
  - intros Heq.
    assert (Hk' : k = w1 `div` 32 * 67108864 + w2 `div` 64) by lia.
    exists (w1 `mod` 32), (w2 `mod` 64).
    assert (k `div` 67108864 = w1 `div` 32).
    { rewrite Hk'. rewrite Z.div_add_l by lia.
      rewrite (Z.div_small (w2 `div` 64)) by lia. lia. }
    assert (k `mod` 67108864 = w2 `div` 64).
    { rewrite Hk'. rewrite Z.add_comm, Z.mod_add by lia.
      apply Z.mod_small. lia. }
    pose proof (Z.mod_pos_bound w1 32). pose proof (Z.mod_pos_bound w2 64).
    pose proof (Z.div_mod w1 32). pose proof (Z.div_mod w2 64).
    lia.
  - intros (r1 & r2 & Hr1 & Hr2 & -> & ->).
    rewrite (Z.mul_comm 32), (Z.mul_comm 64).
    rewrite !Z.div_add_l by lia.
    rewrite (Z.div_small r1), (Z.div_small r2) by lia.
    pose proof (Z.div_mod k 67108864). lia.
Qed.

(** Distinct entries of a batch read distinct places of the stream. *)
Lemma entry_index_inj (cols i t i' t' : nat) :
  (t < cols)%nat → (t' < cols)%nat →
  (i * cols + t)%nat = (i' * cols + t')%nat → i = i' ∧ t = t'.
Proof.
  intros Ht Ht' Heq.
  assert (Hi : i = i').
  { destruct (lt_eq_lt_dec i i') as [[Hlt|Hii]|Hgt]; [|done|].
    - assert ((i + 1) * cols ≤ i' * cols)%nat by (apply Nat.mul_le_mono_r; lia).
      lia.
    - assert ((i' + 1) * cols ≤ i * cols)%nat by (apply Nat.mul_le_mono_r; lia).
      lia. }
  subst i'. split; [done|lia].
Qed.

End RandomKitFacts.

(** * Properties of the array operations *)

Module npFacts.
Import np.

Lemma flatnonzero_fill {A : Type} (v d : A) (bs : list bool) (pre : list A) :
  foldl (λ buf k, <[k := v]> buf) (pre ++ replicate (length bs) d)
        (flatnonzero (length pre) bs)
  = pre ++ ((λ b : bool, if b then v else d) <$> bs).
Proof.
  revert pre. induction bs as [|b bs IH]; intros pre; [done|].
  assert (Hnext : ∀ x : A, pre ++ x :: replicate (length bs) d
                         = (pre ++ [x]) ++ replicate (length bs) d)
    by (intros x; by rewrite <-app_assoc).
  assert (Hlen : ∀ x : A, S (length pre) = length (pre ++ [x]))
    by (intros x; rewrite length_app; simpl; lia).
  cbn [length replicate flatnonzero fmap list_fmap]. destruct b.
  - cbn [foldl].
    replace (<[length pre := v]> (pre ++ d :: replicate (length bs) d))
      with ((pre ++ [v]) ++ replicate (length bs) d).
    + rewrite (Hlen v), IH. by rewrite <-app_assoc.
    + rewrite <-Hnext. rewrite insert_app_r_alt by lia.
      by replace (length pre - length pre)%nat with 0%nat by lia.
  - rewrite (Hnext d), (Hlen d), IH. by rewrite <-app_assoc.
Qed.

Lemma foldl_setitem_flat {A : Type} (v : A) (c : nat) (hits : list nat)
    (buf : list A) :
  foldl (λ buf rc, <[(rc.1 * c + rc.2)%nat := v]> buf) buf
        (zip ((λ k, k `div` c)%nat <$> hits) ((λ k, k `mod` c)%nat <$> hits))
  = foldl (λ buf k, <[k := v]> buf) buf hits.
Proof.
  revert buf. induction hits as [|k hits IH]; intros buf; [done|].
  cbn [fmap list_fmap zip zip_with foldl fst snd]. rewrite <-IH.
  do 2 f_equal. pose proof (Nat.div_mod_eq k c). lia.
Qed.

(** Storing [v] at the places [where_] reports, into an array of [d]s of the
    same shape, stores [v] exactly where the condition holds. *)
Lemma setitem_where {A : Type} (v d : A) (cond : ndarray bool) :
  setitem {| shape := shape cond; buffer := replicate (length (buffer cond)) d |}
          (where_ cond) v
  = {| shape := shape cond;
       buffer := (λ b : bool, if b then v else d) <$> buffer cond |}.
Proof.
  unfold setitem, where_. cbn [shape buffer fst snd]. f_equal.
  rewrite foldl_setitem_flat.
  apply (flatnonzero_fill v d (buffer cond) []).
Qed.

Lemma item_lookup {A : Type} (arr : ndarray A) i t x :
  item arr i t = Some x →
  (i < (shape arr).1)%nat ∧ (t < (shape arr).2)%nat ∧
  buffer arr !! (i * (shape arr).2 + t)%nat = Some x.
Proof.
  unfold item. destruct (decide _) as [[Hi Ht]|]; [|done].
  intros Hx. by repeat split.
Qed.

Lemma item_in_range {A : Type} (arr : ndarray A) i t :
  length (buffer arr) = ((shape arr).1 * (shape arr).2)%nat →
  (i < (shape arr).1)%nat → (t < (shape arr).2)%nat →
  is_Some (item arr i t).
Proof.
  intros Hlen Hi Ht. unfold item. rewrite decide_True by done.
  apply lookup_lt_is_Some. rewrite Hlen. nia.
Qed.

(** *** What [where_] reports *)

Lemma flatnonzero_elem (l : list bool) k0 k :
  k ∈ flatnonzero k0 l ↔ ∃ j, k = (k0 + j)%nat ∧ l !! j = Some true.
Proof.
  revert k0. induction l as [|b l IH]; intros k0.
  - cbn [flatnonzero]. rewrite elem_of_nil. split; [done|]. by intros (j & _ & ?).
  - assert (Htail : k ∈ flatnonzero (S k0) l ↔
                    ∃ j, k = (k0 + S j)%nat ∧ (b :: l) !! S j = Some true).
    { rewrite IH. split; intros (j & -> & Hj); exists j; split; (lia || done). }
    cbn [flatnonzero]. destruct b.
    + rewrite elem_of_cons, Htail. split.
      * intros [->|(j & -> & Hj)]; [exists 0%nat; split; [lia|done]|by exists (S j)].
      * intros ([|j] & -> & Hj); [left; lia|right; by exists j].
    + rewrite Htail. split.
      * intros (j & -> & Hj). by exists (S j).
      * intros ([|j] & -> & Hj); [done|by exists j].
Qed.

Lemma zip_fmap_same {A B C : Type} (f : A → B) (g : A → C) (l : list A) :
  zip (f <$> l) (g <$> l) = (λ x, (f x, g x)) <$> l.
Proof. induction l as [|x l IH]; [done|]. cbn. by rewrite IH. Qed.

(** X7.  [np.where(cond)] returns as many row indices as column indices, and the
    pairs it lists are exactly the places where the condition holds; so
    every pair is inside the array. *)
Theorem where_lists_true_places (cond : ndarray bool) :
  length (buffer cond) = ((shape cond).1 * (shape cond).2)%nat →
  length (where_ cond).1 = length (where_ cond).2 ∧
  ∀ r c, (r, c) ∈ zip (where_ cond).1 (where_ cond).2 ↔
         item cond r c = Some true.
Proof.
  intros Hlen. unfold where_. cbn [fst snd]. split.
  { by rewrite !length_fmap. }
  intros r c. rewrite zip_fmap_same, list_elem_of_fmap.
  set (rows := (shape cond).1) in *. set (cols := (shape cond).2) in *.
  unfold item. fold rows cols. split.
  - intros (k & [= -> ->] & (j & -> & Hj)%flatnonzero_elem).
    cbn [Nat.add] in *.
    assert (Hk : (j < rows * cols)%nat)
      by (rewrite <-Hlen; by eapply lookup_lt_Some).
    assert (Hcols : (0 < cols)%nat) by nia.
    pose proof (Nat.div_mod_eq j cols) as Hdm.
    pose proof (Nat.mod_upper_bound j cols ltac:(lia)) as Hmod.
    assert (Hdiv : (j `div` cols < rows)%nat)
      by (apply Nat.Div0.div_lt_upper_bound; lia).
    rewrite decide_True by done.
    by replace (j `div` cols * cols + j `mod` cols)%nat with j by lia.
  - destruct (decide (r < rows ∧ c < cols)%nat) as [[Hr Hc]|]; [|done].
    intros Hk. exists (r * cols + c)%nat. split.
    + f_equal.
      * rewrite Nat.div_add_l by lia. rewrite Nat.div_small by done. lia.
      * rewrite Nat.add_comm, Nat.Div0.mod_add. by rewrite Nat.mod_small.
    + apply flatnonzero_elem. by exists (r * cols + c)%nat.
Qed.

Lemma where_lists_true_places_witness :
  let cond := {| shape := (2, 2)%nat; buffer := [false; true; true; false] |} in
  length (buffer cond) = ((shape cond).1 * (shape cond).2)%nat ∧
  length (where_ cond).1 = length (where_ cond).2 ∧
  ∀ r c, (r, c) ∈ zip (where_ cond).1 (where_ cond).2 ↔
         item cond r c = Some true.
Proof.
  cbv zeta. split; [reflexivity|].
  apply (where_lists_true_places
           {| shape := (2, 2)%nat; buffer := [false; true; true; false] |}).
  reflexivity.
Defined.

End npFacts.

(** * The data cell *)

Module Sampler.
Import RandomKit RandomKitFacts np npFacts Notebook.

#[local] Arguments rk_fill : simpl never.
#[local] Arguments rk_seed : simpl never.

(** The check on the two dimensions of a new array, in closed form. *)
Lemma new_array_check_accepts d0 d1 :
  new_array_check [d0; d1] = None ↔ sizes_accepted d0 d1.
Proof.
  unfold new_array_check, sizes_accepted, NPY_MAX_INTP.
  destruct (decide (Forall _ [d0; d1])) as [Hin|Hout].
  - apply Forall_cons in Hin as [H0 Hin]. apply Forall_cons in Hin as [H1 _].
    cbn [check_dims]. unfold NPY_MAX_INTP.
    repeat case_decide; subst; split; try done; try lia.
  - split; [done|]. intros (H0 & H1 & Hb). destruct Hout.
    repeat constructor; lia.
Qed.

(** A shape numpy refuses is refused with a [ValueError]. *)
Lemma new_array_check_refuses dims e :
  new_array_check dims = Some e → ∃ msg, e = ValueError msg.
Proof.
  unfold new_array_check.
  destruct (decide (Forall _ dims)) as [_|_]; [|intros [= <-]; eauto].
  generalize 8. induction dims as [|d dims IH]; intros nbytes; [done|].
  cbn [check_dims].
  destruct (decide (d = 0)); [apply IH|].
  destruct (decide (d < 0)); [intros [= <-]; eauto|].
  destruct (decide (nbytes * d > NPY_MAX_INTP)); [intros [= <-]; eauto|].
  apply IH.
Qed.

(** What a call does, in one equation: the seed is checked, the generator is
    reseeded, the sizes are checked, the doubles are drawn and thresholded. *)
Lemma generate_run (batch_size seq_len seed : Z) (w : world) :
  generate batch_size seq_len seed w =
  if decide (seed > 4294967295 ∨ seed < 0)
  then (Raise (ValueError "Seed must be between 0 and 2**32 - 1"), w)
  else
    let st := rk_seed seed (np_random w) in
    match new_array_check [batch_size; seq_len] with
    | Some e =>
        (Raise e, {| np_random := st; tf_default_graph := tf_default_graph w |})
    | None =>
        let r := rk_fill (Z.to_nat batch_size * Z.to_nat seq_len) st in
        (Ok ({| shape := (Z.to_nat batch_size, Z.to_nat seq_len);
                buffer := r.1 |},
             {| shape := (Z.to_nat batch_size, Z.to_nat seq_len);
                buffer := threshold <$> r.1 |}),
         {| np_random := r.2; tf_default_graph := tf_default_graph w |})
    end.
Proof.
  unfold generate, mbind, Py_bind, random_seed.
  destruct (decide (seed > 4294967295 ∨ seed < 0)) as [|Hseed]; [done|].
  unfold random_rand, zeros. cbn [np_random tf_default_graph]. cbv zeta.
  destruct (new_array_check [batch_size; seq_len]) as [e|]; [done|].
  pose proof (rk_fill_length (Z.to_nat batch_size * Z.to_nat seq_len)
                (rk_seed seed (np_random w))) as Hlen.
  destruct (rk_fill _ _) as [xs st'] eqn:Hfill. cbn [fst snd] in *.
  unfold mret, Py_ret. do 3 f_equal.
  pose proof (setitem_where 1%Q 0%Q
                (greater {| shape := (Z.to_nat batch_size, Z.to_nat seq_len);
                            buffer := xs |} (1 # 2))) as Hset.
  unfold greater in Hset. cbn [shape buffer] in Hset.
  rewrite length_fmap, Hlen in Hset.
  unfold greater. cbn [shape buffer]. rewrite Hset. f_equal.
  rewrite <-list_fmap_compose. done.
Qed.

Lemma threshold_one x : threshold x = 1%Q ↔ (1 # 2 < x)%Q.
Proof.
  unfold threshold, gt.
  destruct (Qle_bool x (1 # 2)) eqn:E; cbn [negb].
  - apply Qle_bool_iff in E. split; [done|].
    intros Hlt. by apply Qlt_not_le in Hlt.
  - split; [|done]. intros _. apply Qnot_le_lt. intros Hle.
    apply Qle_bool_iff in Hle. congruence.
Qed.

Lemma threshold_binary x : threshold x = 0%Q ∨ threshold x = 1%Q.
Proof. unfold threshold. destruct (gt x (1 # 2)); auto. Qed.

(** A call whose literal arguments pass both checks. *)
Ltac run_generate :=
  rewrite generate_run;
  rewrite decide_False by lia; cbv zeta;
  match goal with
  | |- context [new_array_check ?dims] =>
      replace (new_array_check dims) with (@None exn)
        by (symmetry; vm_compute; reflexivity)
  end.

(** What a successful call returns. *)
Lemma generate_ok batch_size seq_len seed w data labels w' :
  generate batch_size seq_len seed w = (Ok (data, labels), w') →
  let st := rk_seed seed (np_random w) in
  let n := (Z.to_nat batch_size * Z.to_nat seq_len)%nat in
  0 ≤ seed ≤ 4294967295 ∧ sizes_accepted batch_size seq_len ∧
  data = {| shape := (Z.to_nat batch_size, Z.to_nat seq_len);
            buffer := (rk_fill n st).1 |} ∧
  labels = {| shape := (Z.to_nat batch_size, Z.to_nat seq_len);
              buffer := threshold <$> (rk_fill n st).1 |} ∧
  w' = {| np_random := (rk_fill n st).2;
          tf_default_graph := tf_default_graph w |}.
Proof.
  rewrite generate_run.
  destruct (decide (seed > 4294967295 ∨ seed < 0)); [done|].
  cbv zeta.
  destruct (new_array_check [batch_size; seq_len]) as [e|] eqn:Hcheck; [done|].
  apply new_array_check_accepts in Hcheck.
  intros [= <- <- <-]. repeat split; try lia; apply Hcheck.
Qed.

(** C1.  In every batch the data cell returns, the label array has the shape
    of the value array and is the value array thresholded entry by entry,
    so it is a function of the values alone; and the label at sequence [i],
    position [t] is [1] exactly when the value there is strictly above
    [0.5]. *)
Theorem labels_iff_above_half batch_size seq_len seed w data labels w' :
  generate batch_size seq_len seed w = (Ok (data, labels), w') →
  shape labels = shape data ∧
  buffer labels = threshold <$> buffer data ∧
  ∀ i t x, item data i t = Some x →
    ∃ l, item labels i t = Some l ∧ (l = 1%Q ↔ (1 # 2 < x)%Q).
Proof.
  intros (_ & _ & -> & -> & _)%generate_ok.
  cbn [shape buffer]. repeat split.
  intros i t x (Hi & Ht & Hx)%item_lookup. cbn [shape buffer fst snd] in *.
  exists (threshold x). split; [|apply threshold_one].
  unfold item. cbn [shape buffer fst snd].
  rewrite decide_True by done. by rewrite list_lookup_fmap, Hx.
Qed.

Lemma labels_iff_above_half_witness :
  ∃ data labels w',
    generate 1 10 20 (seeded_world 0) = (Ok (data, labels), w') ∧
    shape labels = shape data ∧
    buffer labels = threshold <$> buffer data ∧
    ∀ i t x, item data i t = Some x →
      ∃ l, item labels i t = Some l ∧ (l = 1%Q ↔ (1 # 2 < x)%Q).
Proof.
  eexists _, _, _. split; [vm_compute; reflexivity|].
  eapply (labels_iff_above_half 1 10 20 (seeded_world 0)).
  vm_compute. reflexivity.
Defined.

(** C10.  Every entry of the label array the data cell returns is exactly
    [0] or exactly [1]: the array starts as zeros and the only store writes
    [1]. *)
Theorem labels_zero_or_one batch_size seq_len seed w data labels w' :
  generate batch_size seq_len seed w = (Ok (data, labels), w') →
  Forall (λ l, l = 0%Q ∨ l = 1%Q) (buffer labels) ∧
  ∀ i t l, item labels i t = Some l → l = 0%Q ∨ l = 1%Q.
Proof.
  intros (_ & _ & _ & -> & _)%generate_ok. cbn [buffer].
  assert (Hall : Forall (λ l, l = 0%Q ∨ l = 1%Q)
                   (threshold <$>
                    (rk_fill (Z.to_nat batch_size * Z.to_nat seq_len)
                       (rk_seed seed (np_random w))).1)).
  { apply Forall_fmap, Forall_true. intros x. apply threshold_binary. }
  split; [done|].
  intros i t l (_ & _ & Hl)%item_lookup. cbn [buffer] in Hl.
  by eapply (Forall_lookup_1 _ _ _ _ Hall).
Qed.

Lemma labels_zero_or_one_witness :
  ∃ data labels w',
    generate 1 10 20 (seeded_world 0) = (Ok (data, labels), w') ∧
    Forall (λ l, l = 0%Q ∨ l = 1%Q) (buffer labels) ∧
    ∀ i t l, item labels i t = Some l → l = 0%Q ∨ l = 1%Q.
Proof.
  eexists _, _, _. split; [vm_compute; reflexivity|].
  eapply (labels_zero_or_one 1 10 20 (seeded_world 0)).
  vm_compute. reflexivity.
Defined.

(** The outcome of a call does not depend on what the generator held. *)
Lemma generate_outcome_ext batch_size seq_len seed w1 w2 :
  world_wf w1 → world_wf w2 →
  (generate batch_size seq_len seed w1).1 = (generate batch_size seq_len seed w2).1.
Proof.
  intros H1 H2. rewrite !generate_run.
  rewrite (rk_seed_ext seed (np_random w1) (np_random w2)) by done.
  destruct (decide (seed > 4294967295 ∨ seed < 0)); [done|].
  cbv zeta. by destruct (new_array_check [batch_size; seq_len]).
Qed.

(** A call leaves a well-formed generator behind. *)
Lemma generate_wf batch_size seq_len seed w :
  world_wf w → world_wf (generate batch_size seq_len seed w).2.
Proof.
  intros Hw. rewrite generate_run. unfold world_wf in *.
  destruct (decide (seed > 4294967295 ∨ seed < 0)); [done|].
  cbv zeta. destruct (new_array_check [batch_size; seq_len]);
    cbn [snd np_random].
  - by apply rk_seed_wf.
  - apply rk_fill_good. by apply rk_seed_good.
Qed.


(** C2.  Two calls with the same seed and the same sizes return the same
    outcome, values and labels alike: whatever the generator of the process
    held before each call, and in particular when the second call follows
    the first in the same process. *)
Theorem generate_deterministic batch_size seq_len seed w1 w2 :
  world_wf w1 → world_wf w2 →
  (generate batch_size seq_len seed w1).1 = (generate batch_size seq_len seed w2).1 ∧
  (generate batch_size seq_len seed (generate batch_size seq_len seed w1).2).1
  = (generate batch_size seq_len seed w1).1.
Proof.
  intros H1 H2. split; [by apply generate_outcome_ext|].
  apply generate_outcome_ext; [by apply generate_wf|done].
Qed.

Lemma seeded_world_wf seed : world_wf (seeded_world seed).
Proof.
  unfold world_wf, seeded_world. cbn [np_random]. apply rk_seed_wf.
  unfold rk_wf. cbn [key]. apply length_replicate.
Qed.

Lemma generate_deterministic_witness :
  world_wf (seeded_world 0) ∧ world_wf (seeded_world 1) ∧
  (generate 1 10 20 (seeded_world 0)).1 = (generate 1 10 20 (seeded_world 1)).1 ∧
  (generate 1 10 20 (generate 1 10 20 (seeded_world 0)).2).1
  = (generate 1 10 20 (seeded_world 0)).1.
Proof.
  assert (H0 : world_wf (seeded_world 0)) by (vm_compute; reflexivity).
  assert (H1 : world_wf (seeded_world 1)) by (vm_compute; reflexivity).
  split; [exact H0|]. split; [exact H1|].
  exact (generate_deterministic 1 10 20 (seeded_world 0) (seeded_world 1) H0 H1).
Defined.

(** The first ten doubles after [seed(20)]. *)
Lemma first_row_seed_20 :
  (rk_fill 10 (rk_seed 20 (np_random (seeded_world 0)))).1 =
  [5297411313153447 # 9007199254740992; 8085886420996467 # 9007199254740992;
   8030194922103283 # 9007199254740992; 7348410717595542 # 9007199254740992;
   323264648821084 # 9007199254740992; 6230798374880050 # 9007199254740992;
   3410854698615729 # 9007199254740992; 4670331401414999 # 9007199254740992;
   5926299950237084 # 9007199254740992; 1746047538046671 # 9007199254740992].
Proof. vm_compute. reflexivity. Qed.

(** C3.  With one sequence of ten values and seed [20], the call returns a
    [1 x 10] batch whose row [0] is
    [0.588, 0.898, 0.892, 0.816, 0.036, 0.692, 0.379, 0.519, 0.658, 0.194]
    to three decimals (and the line the notebook printed, to its eight), and
    whose label row is exactly [1,1,1,1,0,1,0,1,1,0]. *)
Theorem generate_seed_20 w :
  world_wf w →
  ∃ data labels w',
    generate 1 10 20 w = (Ok (data, labels), w') ∧
    shape data = (1%nat, 10%nat) ∧
    close_to (1 # 2000) (row data 0) rounded_data_0 ∧
    close_to (5 # 1000000000) (row data 0) printed_data_0 ∧
    row labels 0 = [1; 1; 1; 1; 0; 1; 0; 1; 1; 0]%Q.
Proof.
  intros Hw. run_generate.
  rewrite (rk_seed_ext 20 (np_random w) (np_random (seeded_world 0)));
    [|exact Hw|apply seeded_world_wf].
  eexists _, _, _. split; [reflexivity|].
  change (Z.to_nat 1 * Z.to_nat 10)%nat with 10%nat.
  unfold row. cbn [shape buffer fst snd]. rewrite first_row_seed_20.
  split; [reflexivity|].
  split; [|split; [|vm_compute; reflexivity]].
  - unfold close_to, rounded_data_0. cbn [take drop Nat.mul].
    repeat (constructor; [by vm_compute|]). constructor.
  - unfold close_to, printed_data_0. cbn [take drop Nat.mul].
    repeat (constructor; [by vm_compute|]). constructor.
Qed.

Lemma generate_seed_20_witness :
  world_wf (seeded_world 42) ∧
  ∃ data labels w',
    generate 1 10 20 (seeded_world 42) = (Ok (data, labels), w') ∧
    shape data = (1%nat, 10%nat) ∧
    close_to (1 # 2000) (row data 0) rounded_data_0 ∧
    close_to (5 # 1000000000) (row data 0) printed_data_0 ∧
    row labels 0 = [1; 1; 1; 1; 0; 1; 0; 1; 1; 0]%Q.
Proof.
  assert (H : world_wf (seeded_world 42)) by (vm_compute; reflexivity).
  split; [exact H|]. exact (generate_seed_20 (seeded_world 42) H).
Defined.

Lemma rk_fill_take n m st : take n (rk_fill (n + m) st).1 = (rk_fill n st).1.
Proof.
  revert st. induction n as [|n IH]; intros st; [by rewrite take_0|].
  replace (S n + m)%nat with (S (n + m)) by lia.
  rewrite !rk_fill_S. cbn [fst take]. by rewrite IH.
Qed.

(** Cell 4 as it stands draws [1000 x 10] values; what it prints is row [0]
    of each array, and that is the pair of lines stored in the notebook. *)
Lemma cell_4_prints w :
  world_wf w →
  ∃ data_0 labels_0 w',
    cell_4 w = (Ok (data_0, labels_0), w') ∧
    close_to (5 # 1000000000) data_0 printed_data_0 ∧
    labels_0 = printed_labels_0.
Proof.
  intros Hw. unfold cell_4, mbind, Py_bind. run_generate.
  rewrite (rk_seed_ext 20 (np_random w) (np_random (seeded_world 0)));
    [|exact Hw|apply seeded_world_wf].
  unfold mret, Py_ret. eexists _, _, _. split; [reflexivity|].
  unfold row. cbn [shape buffer fst snd].
  change (Z.to_nat 1000 * Z.to_nat 10)%nat with (10 + 999 * 10)%nat.
  change (Z.to_nat 10) with 10%nat. change (0 * 10)%nat with 0%nat.
  rewrite !drop_0, <-fmap_take, rk_fill_take, first_row_seed_20. split.
  - unfold close_to, printed_data_0.
    repeat (constructor; [by vm_compute|]). constructor.
  - vm_compute. reflexivity.
Qed.




(** C5, as the code has it.  A call raises [ValueError] exactly when the
    seed is outside [[0, 2^32 - 1]], a size is negative, or the array would
    have more than [NPY_MAX_INTP] bytes (a size of zero counting as one); a
    size of zero alone is no error. *)
Theorem generate_raises_iff batch_size seq_len seed w :
  (∃ msg, (generate batch_size seq_len seed w).1 = Raise (ValueError msg)) ↔
  (seed < 0 ∨ 4294967295 < seed ∨ batch_size < 0 ∨ seq_len < 0 ∨
   NPY_MAX_INTP < 8 * Z.max batch_size 1 * Z.max seq_len 1).
Proof.
  rewrite generate_run.
  destruct (decide (seed > 4294967295 ∨ seed < 0)) as [Hseed|Hseed].
  { cbn [fst]. split; [lia|eauto]. }
  cbv zeta.
  destruct (new_array_check [batch_size; seq_len]) as [e|] eqn:Hcheck;
    cbn [fst].
  - destruct (new_array_check_refuses _ _ Hcheck) as [msg ->].
    split; [intros _|eauto].
    destruct (decide (sizes_accepted batch_size seq_len)) as [Hok|Hno].
    + apply new_array_check_accepts in Hok. congruence.
    + unfold sizes_accepted in Hno. lia.
  - apply new_array_check_accepts in Hcheck. unfold sizes_accepted in Hcheck.
    split; [by intros [msg ?]|lia].
Qed.

(** C5 fails as stated on both sides: with [batch_size = 0] the call
    returns, and with positive sizes and seed [-1] it raises. *)
Lemma generate_raises_counterexample :
  (∃ dl, (generate 0 10 20 (seeded_world 0)).1 = Ok dl) ∧
  (generate 1 10 (-1) (seeded_world 0)).1
  = Raise (ValueError "Seed must be between 0 and 2**32 - 1").
Proof.
  split; [|reflexivity].
  run_generate. cbn [fst]. eauto.
Qed.

(** C6, as the code has it.  The one thing a call changes outside its result
    is the generator of the process.  When the call returns, the generator
    has been reseeded and advanced by the draws; when it raises, the
    generator is as it was if the seed was refused, and reseeded
    otherwise.  The default graph is as it was. *)
Theorem generate_effect batch_size seq_len seed w :
  tf_default_graph (generate batch_size seq_len seed w).2 = tf_default_graph w ∧
  np_random (generate batch_size seq_len seed w).2 =
    match (generate batch_size seq_len seed w).1 with
    | Ok _ =>
        (rk_fill (Z.to_nat batch_size * Z.to_nat seq_len)
                 (rk_seed seed (np_random w))).2
    | Raise _ =>
        if decide (seed > 4294967295 ∨ seed < 0) then np_random w
        else rk_seed seed (np_random w)
    end.
Proof.
  rewrite generate_run.
  destruct (decide (seed > 4294967295 ∨ seed < 0)); [done|].
  cbv zeta. by destruct (new_array_check [batch_size; seq_len]).
Qed.

(** C6 fails as stated: the call leaves the process with another generator
    state than it found. *)
Lemma generate_effect_counterexample :
  (generate 1 10 20 (seeded_world 42)).2 ≠ seeded_world 42.
Proof.
  intros H. apply (f_equal (λ w, pos (np_random w))) in H.
  vm_compute in H. discriminate H.
Qed.


(** ** More about the data cell and [reset_graph] *)

(** X1.  [reset_graph(seed)] drops the default graph and sets the graph seed
    before it seeds numpy, so a seed numpy refuses still leaves the process
    with an empty graph carrying that seed; only the generator is then left
    as it was. *)
Theorem reset_graph_effect seed w :
  tf_default_graph (reset_graph seed w).2 = fresh_graph seed ∧
  (reset_graph seed w).1 =
    (if decide (seed > 4294967295 ∨ seed < 0)
     then Raise (ValueError "Seed must be between 0 and 2**32 - 1")
     else Ok ()) ∧
  np_random (reset_graph seed w).2 =
    (if decide (seed > 4294967295 ∨ seed < 0)
     then np_random w
     else rk_seed seed (np_random w)).
Proof.
  unfold reset_graph, mbind, Py_bind, on_default_graph, random_seed.
  cbn [tf.reset_default_graph tf.set_random_seed tf_default_graph np_random].
  by destruct (decide (seed > 4294967295 ∨ seed < 0)).
Qed.

(** X2.  After [reset_graph(seed)] with a seed numpy accepts, the process state is
    a function of the seed: nothing of the graph or of the generator it
    found survives, and a second [reset_graph(seed)] changes nothing. *)
Theorem reset_graph_erases seed w1 w2 :
  world_wf w1 → world_wf w2 → 0 ≤ seed ≤ 4294967295 →
  reset_graph seed w1 = reset_graph seed w2 ∧
  world_wf (reset_graph seed w1).2 ∧
  reset_graph seed (reset_graph seed w1).2 = reset_graph seed w1.
Proof.
  intros H1 H2 Hseed.
  assert (Hrun : ∀ w, reset_graph seed w =
            (Ok (), {| np_random := rk_seed seed (np_random w);
                       tf_default_graph := fresh_graph seed |})).
  { intros w.
    unfold reset_graph, mbind, Py_bind, on_default_graph, random_seed.
    cbn [tf.reset_default_graph tf.set_random_seed tf_default_graph np_random].
    by rewrite decide_False by lia. }
  assert (Hwf : world_wf (reset_graph seed w1).2).
  { rewrite Hrun. unfold world_wf. cbn [snd np_random]. by apply rk_seed_wf. }
  split; [|split; [exact Hwf|]].
  - rewrite !Hrun. by rewrite (rk_seed_ext seed _ _ H1 H2).
  - rewrite (Hrun (reset_graph seed w1).2), (Hrun w1). cbn [snd np_random].
    rewrite (rk_seed_ext seed (rk_seed seed (np_random w1)) (np_random w1));
      [done|by apply rk_seed_wf|exact H1].
Qed.

Lemma reset_graph_erases_witness :
  world_wf (seeded_world 0) ∧ world_wf (seeded_world 1) ∧ 0 ≤ 42 ≤ 4294967295 ∧
  reset_graph 42 (seeded_world 0) = reset_graph 42 (seeded_world 1) ∧
  world_wf (reset_graph 42 (seeded_world 0)).2 ∧
  reset_graph 42 (reset_graph 42 (seeded_world 0)).2
  = reset_graph 42 (seeded_world 0).
Proof.
  assert (H0 : world_wf (seeded_world 0)) by (vm_compute; reflexivity).
  assert (H1 : world_wf (seeded_world 1)) by (vm_compute; reflexivity).
  split; [exact H0|]. split; [exact H1|]. split; [lia|].
  exact (reset_graph_erases 42 (seeded_world 0) (seeded_world 1) H0 H1
           ltac:(lia)).
Defined.

(** Drawing [n + m] doubles is drawing [n] and then [m] from where the
    generator was left. *)
Lemma rk_fill_app n m st :
  rk_fill (n + m) st =
  ((rk_fill n st).1 ++ (rk_fill m (rk_fill n st).2).1,
   (rk_fill m (rk_fill n st).2).2).
Proof.
  revert st. induction n as [|n IH]; intros st.
  - cbn [Nat.add]. change (rk_fill 0 st) with (@nil Q, st). cbn [fst snd app].
    by destruct (rk_fill m st).
  - replace (S n + m)%nat with (S (n + m)) by lia.
    rewrite !rk_fill_S, IH. reflexivity.
Qed.


(** X3.  A batch of [batch_size + more] sequences is the batch of [batch_size]
    sequences followed by what [np.random.rand(more, seq_len)] draws next:
    where the three calls return, same seed and length give the same first
    sequences whatever the batch size, and cell 4 leaves the generator where
    a longer batch would continue. *)
Theorem generate_then_rand batch_size more seq_len seed w
    data labels w1 data' w2 all_data all_labels w3 :
  generate batch_size seq_len seed w = (Ok (data, labels), w1) →
  random_rand more seq_len w1 = (Ok data', w2) →
  generate (batch_size + more) seq_len seed w
    = (Ok (all_data, all_labels), w3) →
  w3 = w2 ∧
  buffer all_data = buffer data ++ buffer data' ∧
  buffer all_labels = buffer labels ++ (threshold <$> buffer data') ∧
  ∀ i t, (i < Z.to_nat batch_size)%nat →
    item all_data i t = item data i t ∧
    item all_labels i t = item labels i t.
Proof.
  intros (_ & (Hb & Hs & _) & -> & -> & ->)%generate_ok Hrand
    (_ & _ & -> & -> & ->)%generate_ok.
  unfold random_rand in Hrand.
  destruct (new_array_check [more; seq_len]) as [e|] eqn:Hcheck; [done|].
  apply new_array_check_accepts in Hcheck as (Hm & _ & _).
  cbn [np_random tf_default_graph] in Hrand.
  replace (Z.to_nat (batch_size + more) * Z.to_nat seq_len)%nat
    with (Z.to_nat batch_size * Z.to_nat seq_len
          + Z.to_nat more * Z.to_nat seq_len)%nat by lia.
  replace (Z.to_nat (batch_size + more))
    with (Z.to_nat batch_size + Z.to_nat more)%nat by lia.
  set (n := (Z.to_nat batch_size * Z.to_nat seq_len)%nat) in *.
  set (m := (Z.to_nat more * Z.to_nat seq_len)%nat) in *.
  set (st := rk_seed seed (np_random w)) in *.
  rewrite rk_fill_app.
  pose proof (rk_fill_length n st) as Hlen.
  destruct (rk_fill n st) as [xs st1]. cbn [fst snd] in *.
  destruct (rk_fill m st1) as [ys st2] eqn:Hm2. cbn [fst snd].
  injection Hrand as <- <-.
  cbn [buffer]. split; [reflexivity|]. split; [reflexivity|].
  split; [by rewrite fmap_app|].
  intros i t Hi. unfold item. cbn [shape buffer fst snd].
  destruct (decide (t < Z.to_nat seq_len)%nat) as [Ht|Ht].
  - rewrite !decide_True by (split; lia).
    assert (i * Z.to_nat seq_len + t < n)%nat by (unfold n; nia).
    rewrite fmap_app, !lookup_app_l;
      [done|by rewrite length_fmap, Hlen|by rewrite Hlen].
  - by rewrite !decide_False by (intros [_ ?]; lia).
Qed.

Lemma generate_then_rand_witness :
  ∃ data labels w1 data' w2 all_data all_labels w3,
    generate 1 10 20 (seeded_world 0) = (Ok (data, labels), w1) ∧
    random_rand 2 10 w1 = (Ok data', w2) ∧
    generate (1 + 2) 10 20 (seeded_world 0) = (Ok (all_data, all_labels), w3) ∧
    w3 = w2 ∧
    buffer all_data = buffer data ++ buffer data' ∧
    buffer all_labels = buffer labels ++ (threshold <$> buffer data') ∧
    ∀ i t, (i < Z.to_nat 1)%nat →
      item all_data i t = item data i t ∧
      item all_labels i t = item labels i t.
Proof.
  pose (r1 := generate 1 10 20 (seeded_world 0)).
  pose (r2 := random_rand 2 10 r1.2).
  pose (r3 := generate (1 + 2) 10 20 (seeded_world 0)).
  assert (H1 : ∃ d l, r1 = (Ok (d, l), r1.2))
    by (eexists _, _; vm_compute; reflexivity).
  assert (H2 : ∃ d, r2 = (Ok d, r2.2))
    by (eexists _; vm_compute; reflexivity).
  assert (H3 : ∃ d l, r3 = (Ok (d, l), r3.2))
    by (eexists _, _; vm_compute; reflexivity).
  destruct H1 as (data & labels & H1), H2 as (data' & H2),
    H3 as (all_data & all_labels & H3).
  exists data, labels, r1.2, data', r2.2, all_data, all_labels, r3.2.
  split; [exact H1|]. split; [exact H2|]. split; [exact H3|].
  exact (generate_then_rand 1 2 10 20 (seeded_world 0) data labels r1.2
           data' r2.2 all_data all_labels r3.2 H1 H2 H3).
Defined.

(** X4.  A batch with a size of zero, when the call returns it, is a pair of
    arrays of the shape asked for that hold nothing, and the call has drawn
    nothing: the generator is left as [np.random.seed(seed)] leaves it. *)
Theorem generate_empty batch_size seq_len seed w data labels w' :
  generate batch_size seq_len seed w = (Ok (data, labels), w') →
  batch_size = 0 ∨ seq_len = 0 →
  data = {| shape := (Z.to_nat batch_size, Z.to_nat seq_len); buffer := [] |} ∧
  labels = {| shape := (Z.to_nat batch_size, Z.to_nat seq_len); buffer := [] |} ∧
  w' = {| np_random := rk_seed seed (np_random w);
          tf_default_graph := tf_default_graph w |} ∧
  pos (np_random w') = RK_STATE_LEN.
Proof.
  intros (_ & _ & -> & -> & ->)%generate_ok Hzero.
  replace (Z.to_nat batch_size * Z.to_nat seq_len)%nat with 0%nat by lia.
  repeat split.
Qed.

Lemma generate_empty_witness :
  ∃ data labels w',
    generate 0 10 20 (seeded_world 0) = (Ok (data, labels), w') ∧
    (0 = 0 ∨ 10 = 0) ∧
    data = {| shape := (Z.to_nat 0, Z.to_nat 10); buffer := [] |} ∧
    labels = {| shape := (Z.to_nat 0, Z.to_nat 10); buffer := [] |} ∧
    w' = {| np_random := rk_seed 20 (np_random (seeded_world 0));
            tf_default_graph := tf_default_graph (seeded_world 0) |} ∧
    pos (np_random w') = RK_STATE_LEN.
Proof.
  do 3 eexists. split; [vm_compute; reflexivity|]. split; [by left|].
  eapply (generate_empty 0 10 20 (seeded_world 0));
    [vm_compute; reflexivity|by left].
Defined.

(** X5.  Row [i] of each array, what [data[i]] and [labels[i]] give and cell 4
    prints for [i = 0]: [seq_len] entries, the entries [(i, 0)], [(i, 1)],
    ... of the array, and the label row is the value row thresholded. *)
Theorem generate_rows batch_size seq_len seed w data labels w' i :
  generate batch_size seq_len seed w = (Ok (data, labels), w') →
  (i < Z.to_nat batch_size)%nat →
  length (row data i) = Z.to_nat seq_len ∧
  row labels i = threshold <$> row data i ∧
  ∀ t, (t < Z.to_nat seq_len)%nat →
    row data i !! t = item data i t ∧ row labels i !! t = item labels i t.
Proof.
  intros (_ & _ & -> & -> & _)%generate_ok Hi.
  unfold row, item. cbn [shape buffer fst snd].
  set (s := Z.to_nat seq_len).
  set (xs := (rk_fill (Z.to_nat batch_size * s) _).1).
  assert (Hlen : length xs = (Z.to_nat batch_size * s)%nat)
    by apply rk_fill_length.
  split; [|split].
  - rewrite length_take, length_drop, Hlen. nia.
  - by rewrite fmap_take, fmap_drop.
  - intros t Ht. rewrite !decide_True by done.
    rewrite !lookup_take_lt, !lookup_drop by done. done.
Qed.

Lemma generate_rows_witness :
  ∃ data labels w',
    generate 2 3 20 (seeded_world 0) = (Ok (data, labels), w') ∧
    (1 < Z.to_nat 2)%nat ∧
    length (row data 1) = Z.to_nat 3 ∧
    row labels 1 = threshold <$> row data 1 ∧
    ∀ t, (t < Z.to_nat 3)%nat →
      row data 1 !! t = item data 1 t ∧ row labels 1 !! t = item labels 1 t.
Proof.
  eexists _, _, _. split; [vm_compute; reflexivity|].
  split; [vm_compute; lia|].
  eapply (generate_rows 2 3 20 (seeded_world 0)); [|vm_compute; lia].
  vm_compute. reflexivity.
Defined.

(** *** A label is a bit of the generator *)

Lemma word_top_bit w : word w → Z.testbit w 31 = true ↔ 2147483648 ≤ w.
Proof.
  unfold word. intros Hw. rewrite Z.testbit_true by lia.
  change (2 ^ 31) with 2147483648.
  pose proof (Z.div_mod w 2147483648 ltac:(lia)) as Hdm.
  pose proof (Z.mod_pos_bound w 2147483648 ltac:(lia)) as Hr.
  assert (Hq : 0 ≤ w `div` 2147483648 < 2) by lia.
  rewrite (Z.mod_small _ 2 Hq). lia.
Qed.

Lemma threshold_top_bit w1 w2 :
  word w1 → word w2 →
  threshold (double_of_words w1 w2) = 1%Q ↔
  Z.testbit w1 31 = true ∧ (Z.shiftr w1 5 ≠ 67108864 ∨ Z.shiftr w2 6 ≠ 0).
Proof.
  intros Hw1 Hw2. rewrite threshold_one, (word_top_bit w1 Hw1).
  pose proof (shiftr5_word w1 Hw1) as Ha.
  pose proof (shiftr6_word w2 Hw2) as Hb.
  rewrite double_of_words_eq. unfold Qlt. cbn [Qnum Qden].
  assert (Hdiv : Z.shiftr w1 5 = w1 `div` 32)
    by (rewrite Z.shiftr_div_pow2 by lia; reflexivity).
  pose proof (Z.div_mod w1 32 ltac:(lia)) as Hdm.
  pose proof (Z.mod_pos_bound w1 32 ltac:(lia)) as Hr.
  lia.
Qed.

(** The doubles [rk_fill] returns, place by place, with the words they are
    made of. *)
Lemma rk_fill_entry n st j :
  rk_good st → (j < n)%nat →
  ∃ w1 w2,
    rk_words (2 * n) st !! (2 * j)%nat = Some w1 ∧
    rk_words (2 * n) st !! (2 * j + 1)%nat = Some w2 ∧
    word w1 ∧ word w2 ∧
    (rk_fill n st).1 !! j = Some (double_of_words w1 w2).
Proof.
  intros Hgood Hj.
  pose proof (rk_words_word (2 * n) st Hgood) as Hwords.
  destruct (pair_up_lookup (rk_words (2 * n) st) j)
    as (w1 & w2 & H1 & H2 & Hp); [rewrite rk_words_length; lia|].
  exists w1, w2. split; [done|]. split; [done|].
  split; [by eapply (Forall_lookup_1 _ _ _ _ Hwords)|].
  split; [by eapply (Forall_lookup_1 _ _ _ _ Hwords)|].
  by rewrite rk_fill_words.
Qed.

(** X6.  The label of an entry is the top bit of the first of the two words the
    entry is drawn from, but for the one value that is [0.5] exactly (the
    top bit alone of the 53, which [>] leaves at [0]). *)
Theorem label_is_top_bit batch_size seq_len seed w data labels w' i t :
  world_wf w →
  generate batch_size seq_len seed w = (Ok (data, labels), w') →
  (i < Z.to_nat batch_size)%nat → (t < Z.to_nat seq_len)%nat →
  let stream := rk_words (2 * (Z.to_nat batch_size * Z.to_nat seq_len))
                  (rk_seed seed (np_random w)) in
  let j := (i * Z.to_nat seq_len + t)%nat in
  ∃ w1 w2 l,
    stream !! (2 * j)%nat = Some w1 ∧ stream !! (2 * j + 1)%nat = Some w2 ∧
    item labels i t = Some l ∧
    (l = 1%Q ↔
     Z.testbit w1 31 = true ∧ (Z.shiftr w1 5 ≠ 67108864 ∨ Z.shiftr w2 6 ≠ 0)) ∧
    (l = 0%Q ↔
     Z.testbit w1 31 = false ∨ (Z.shiftr w1 5 = 67108864 ∧ Z.shiftr w2 6 = 0)).
Proof.
  intros Hw (_ & _ & _ & -> & _)%generate_ok Hi Ht. cbv zeta.
  set (n := (Z.to_nat batch_size * Z.to_nat seq_len)%nat).
  set (st := rk_seed seed (np_random w)).
  assert (Hj : (i * Z.to_nat seq_len + t < n)%nat) by (unfold n; nia).
  destruct (rk_fill_entry n st _ (rk_seed_good seed _ Hw) Hj)
    as (w1 & w2 & H1 & H2 & Hw1 & Hw2 & Hx).
  exists w1, w2, (threshold (double_of_words w1 w2)).
  split; [done|]. split; [done|]. split.
  { unfold item. cbn [shape buffer fst snd]. rewrite decide_True by done.
    by rewrite list_lookup_fmap, Hx. }
  pose proof (threshold_top_bit w1 w2 Hw1 Hw2) as Hone.
  split; [exact Hone|].
  destruct (threshold_binary (double_of_words w1 w2)) as [H0|H1'].
  - rewrite H0 in Hone |- *. split; [intros _|done].
    destruct (Z.testbit w1 31); [|by left]. right.
    destruct (decide (Z.shiftr w1 5 = 67108864)) as [Ha|Ha];
      destruct (decide (Z.shiftr w2 6 = 0)) as [Hb|Hb]; [done|..];
      exfalso; assert (0 = 1)%Q by (apply Hone; auto); done.
  - rewrite H1' in Hone |- *. split; [done|].
    destruct (proj1 Hone eq_refl) as [Hbit Hne].
    intros [Hbit'|[Ha Hb]]; [congruence|]. by destruct Hne.
Qed.

Lemma label_is_top_bit_witness :
  ∃ data labels w',
    world_wf (seeded_world 0) ∧
    generate 1 10 20 (seeded_world 0) = (Ok (data, labels), w') ∧
    (0 < Z.to_nat 1)%nat ∧ (4 < Z.to_nat 10)%nat ∧
    let stream := rk_words (2 * (Z.to_nat 1 * Z.to_nat 10))
                    (rk_seed 20 (np_random (seeded_world 0))) in
    let j := (0 * Z.to_nat 10 + 4)%nat in
    ∃ w1 w2 l,
      stream !! (2 * j)%nat = Some w1 ∧ stream !! (2 * j + 1)%nat = Some w2 ∧
      item labels 0 4 = Some l ∧
      (l = 1%Q ↔
       Z.testbit w1 31 = true ∧ (Z.shiftr w1 5 ≠ 67108864 ∨ Z.shiftr w2 6 ≠ 0)) ∧
      (l = 0%Q ↔
       Z.testbit w1 31 = false ∨ (Z.shiftr w1 5 = 67108864 ∧ Z.shiftr w2 6 = 0)).
Proof.
  assert (H : world_wf (seeded_world 0)) by (vm_compute; reflexivity).
  eexists _, _, _. split; [exact H|].
  split; [vm_compute; reflexivity|].
  split; [vm_compute; lia|]. split; [vm_compute; lia|].
  eapply (label_is_top_bit 1 10 20 (seeded_world 0) _ _ _ 0 4 H);
    [vm_compute; reflexivity|vm_compute; lia|vm_compute; lia].
Defined.

(** *** The seed in the generator *)

Lemma seed_loop_lookup_before n p s k j :
  (j < p)%nat → seed_loop n p s k !! j = k !! j.
Proof.
  revert p s k. induction n as [|n IH]; intros p s k Hj; [done|].
  rewrite seed_loop_S, IH by lia. apply list_lookup_insert_ne. lia.
Qed.

Lemma rk_seed_first_word seed st :
  rk_wf st → 0 ≤ seed ≤ 4294967295 → key (rk_seed seed st) !! 0%nat = Some seed.
Proof.
  intros Hst Hseed. unfold rk_seed. cbn [key].
  change RK_STATE_LEN with (S 623). rewrite seed_loop_S.
  rewrite seed_loop_lookup_before by lia.
  rewrite list_lookup_insert_eq by (rewrite Hst; unfold RK_STATE_LEN; lia).
  f_equal. change 0xffffffff with (Z.ones 32).
  rewrite Z.land_ones by lia. apply Z.mod_small.
  change (2 ^ 32) with 4294967296. lia.
Qed.

(** X8.  [np.random.seed] keeps the seed as the first word of the key, so two
    seeds numpy accepts leave the generator of the process in the same state
    exactly when they are the same seed. *)
Theorem seed_decides_generator seed1 seed2 w1 w2 :
  world_wf w1 → world_wf w2 →
  0 ≤ seed1 ≤ 4294967295 → 0 ≤ seed2 ≤ 4294967295 →
  np_random (random_seed seed1 w1).2 = np_random (random_seed seed2 w2).2
  ↔ seed1 = seed2.
Proof.
  intros H1 H2 Hs1 Hs2. unfold random_seed.
  rewrite !decide_False by lia. cbn [snd np_random]. split.
  - intros Heq.
    pose proof (rk_seed_first_word seed1 _ H1 Hs1) as Hk1.
    pose proof (rk_seed_first_word seed2 _ H2 Hs2) as Hk2.
    rewrite Heq in Hk1. congruence.
  - intros ->. by apply rk_seed_ext.
Qed.

Lemma seed_decides_generator_witness :
  world_wf (seeded_world 0) ∧ world_wf (seeded_world 1) ∧
  0 ≤ 20 ≤ 4294967295 ∧ 0 ≤ 42 ≤ 4294967295 ∧
  (np_random (random_seed 20 (seeded_world 0)).2
   = np_random (random_seed 42 (seeded_world 1)).2 ↔ 20 = 42).
Proof.
  assert (H0 : world_wf (seeded_world 0)) by (vm_compute; reflexivity).
  assert (H1 : world_wf (seeded_world 1)) by (vm_compute; reflexivity).
  split; [exact H0|]. split; [exact H1|]. split; [lia|]. split; [lia|].
  exact (seed_decides_generator 20 42 (seeded_world 0) (seeded_world 1) H0 H1
           ltac:(lia) ltac:(lia)).
Defined.


End Sampler.
(** * The graph cell *)

Module Classifier.
Import tf Notebook.

(** Cell 8 resets the graph and reseeds, then builds on the fresh graph. *)
Lemma run_after_reset hp its w :
  (_ ← reset_graph 42; on_default_graph (model hp its)) w =
  ((model hp its (fresh_graph 42)).1,
   {| np_random := RandomKit.rk_seed 42 (np_random w);
      tf_default_graph := (model hp its (fresh_graph 42)).2 |}).
Proof.
  unfold reset_graph, mbind, Py_bind, on_default_graph, np.random_seed.
  cbn [reset_default_graph set_random_seed tf_default_graph np_random].
  rewrite decide_False by lia. cbn [tf_default_graph np_random].
  change {| operations := operations empty_graph;
            names_in_use := names_in_use empty_graph;
            graph_seed := Some 42;
            variables := variables empty_graph |} with (fresh_graph 42).
  by destruct (model hp its (fresh_graph 42)).
Qed.

Ltac run_cell_8 :=
  unfold cell_8, cell_8_without_loop; rewrite !run_after_reset.

(** *** One call at a time *)

(** A name that was never used is given as it is. *)
Lemma unique_name_fresh nm g :
  names_in_use g !! lower nm = None →
  unique_name nm g = (Ok nm, mark nm g).
Proof.
  intros Hfree. unfold unique_name. rewrite Hfree. cbn [default].
  by rewrite decide_True by done.
Qed.

(** [unique_name] always returns, and touches the names only. *)
Lemma unique_name_returns nm g :
  ∃ s g', unique_name nm g = (Ok s, g') ∧
    operations g' = operations g ∧ variables g' = variables g ∧
    graph_seed g' = graph_seed g.
Proof.
  unfold unique_name.
  destruct (decide (default 0%nat (names_in_use g !! lower nm) = 0%nat));
    eexists _, _; (split; [reflexivity|done]).
Qed.

(** The cell is its statements before the loop, the loop, and the
    statements after it. *)
Lemma model_pieces hp its g :
  model hp its g =
  match prologue hp g with
  | (Ok (X, y, ro, st, cell), g1) =>
      match for_in its (loop_body hp ro st y) None g1 with
      | (Ok loop, g2) =>
          match epilogue ro y g2 with
          | (Ok (ce, mn), g3) =>
              (Ok {| X := X; y := y; cell := cell; rnn_outputs := ro;
                     states := st; loop := loop; cross_entropy := ce;
                     optimizer := AdamOptimizer_default; minimize := mn |}, g3)
          | (Raise e, g3) => (Raise e, g3)
          end
      | (Raise e, g2) => (Raise e, g2)
      end
  | (Raise e, g1) => (Raise e, g1)
  end.
Proof.
  unfold model, prologue, epilogue, mbind, Build_bind, mret, Build_ret.
  destruct (placeholder _ _ g) as [[X|e] g1]; [|done].
  destruct (placeholder _ _ g1) as [[y|e] g2]; [|done].
  destruct (dynamic_rnn _ X _ g2) as [[r1|e] g3]; [|done].
  destruct (dynamic_rnn _ X _ g3) as [[[[ro st] cell]|e] g4]; [|done].
  cbn [fst snd].
  destruct (for_in _ _ _ g4) as [[loop|e] g5]; [|done].
  destruct (softmax_cross_entropy_with_logits _ _ g5) as [[ce|e] g6]; [|done].
  destruct (reduce_sum ce g6) as [[ce'|e] g7]; [|done].
  by destruct (tf.minimize _ ce' g7) as [[mn|e] g8].
Qed.

(** The statements before the loop, on the graph [reset_graph()] leaves. *)
Lemma prologue_run hp :
  prologue hp (fresh_graph 42) =
  (Ok (X_tensor hp, y_tensor hp, rnn_outputs_tensor hp, states_tensor hp,
       rnn_cell hp),
   declared hp).
Proof.
  unfold prologue, mbind, Build_bind, mret, Build_ret.
  assert (H1 : placeholder float32 [None; Some (n_steps hp); Some (n_inputs hp)]
                 (fresh_graph 42)
               = (Ok (X_tensor hp),
                  with_op {| name := "Placeholder"; kind := Placeholder;
                             outputs := [X_tensor hp] |}
                    (mark "Placeholder" (fresh_graph 42))))
    by (destruct hp; vm_compute; reflexivity).
  rewrite H1. clear H1.
  set (g1 := with_op _ _).
  assert (H2 : placeholder float32 [None; Some (n_steps hp); Some (n_outputs hp)] g1
               = (Ok (y_tensor hp),
                  with_op {| name := "Placeholder_1"; kind := Placeholder;
                             outputs := [y_tensor hp] |}
                    {| operations := operations g1;
                       names_in_use :=
                         <["placeholder_1" := 1%nat]>
                           (<["placeholder" := 2%nat]> ∅);
                       graph_seed := Some 42; variables := [] |}))
    by (destruct hp; vm_compute; reflexivity).
  rewrite H2. clear H2. subst g1.
  set (g2 := with_op _ _).
  assert (H3 : dynamic_rnn {| num_units := n_neurons hp; cell_activation := relu;
                              cell_weights := None |} (X_tensor hp) float32 g2
               = (Ok ((rnn_tensors "rnn" hp).1, (rnn_tensors "rnn" hp).2,
                      rnn_cell hp),
                  with_op (rnn_op "rnn" hp)
                    (with_variable (bias_tensor hp)
                       (with_variable (kernel_tensor hp) (mark "rnn" g2)))))
    by (destruct hp; vm_compute; reflexivity).
  rewrite H3. clear H3. cbn [fst snd].
  set (g3 := with_op _ _).
  unfold dynamic_rnn, mbind, Build_bind, mret, Build_ret.
  assert (H4 : unique_name "rnn" g3
               = (Ok "rnn_1",
                  {| operations := operations g3;
                     names_in_use := names_in_use (declared hp);
                     graph_seed := Some 42; variables := variables g3 |}))
    by (destruct hp; vm_compute; reflexivity).
  rewrite H4. clear H4.
  cbn [t_shape X_tensor]. unfold build_cell. cbn [cell_weights rnn_cell].
  cbn [t_shape kernel_tensor num_units].
  rewrite decide_True by done.
  unfold mret, Build_ret, append_op. cbn [fst snd]. reflexivity.
Qed.

(** A variable that does not exist yet is created. *)
Lemma get_variable_fresh nm dt shape g :
  nm ∉ producer <$> variables g →
  get_variable nm dt shape g
  = (Ok {| producer := nm; output_index := 0; t_dtype := dt;
           t_shape := Some <$> shape |},
     with_variable {| producer := nm; output_index := 0; t_dtype := dt;
                      t_shape := Some <$> shape |} g).
Proof. intros Hnew. unfold get_variable. by rewrite decide_False by done. Qed.

(** A variable that exists is not created again, in any scope that does not
    reuse. *)
Lemma get_variable_exists nm dt shape g :
  nm ∈ producer <$> variables g →
  get_variable nm dt shape g
  = (Raise (ValueError
       ("Variable " +:+ nm +:+ " already exists, disallowed."
        +:+ " Did you mean to set reuse=True or reuse=tf.AUTO_REUSE in"
        +:+ " VarScope?")), g).
Proof. intros Hold. unfold get_variable. by rewrite decide_True by done. Qed.

(** The first iteration of the loop, whatever its index: it stops at the
    slice when the index is outside the steps, and at the cross-entropy
    otherwise, whose labels [y] have three dimensions where the logits have
    two. *)
Lemma first_iteration hp i :
  loop_body hp (rnn_outputs_tensor hp) (states_tensor hp) (y_tensor hp) i
    (declared hp) =
  if decide (out_of_bounds (Some (n_steps hp)) i)
  then (Raise (ValueError (slice_message i)), stopped_at_slice hp)
  else (Raise (ValueError rank_message), stopped_at_xentropy hp i).
Proof.
  unfold loop_body, mbind, Build_bind.
  unfold strided_slice, mbind, Build_bind.
  rewrite unique_name_fresh by (vm_compute; reflexivity).
  cbn [t_shape rnn_outputs_tensor rnn_tensors fst].
  destruct (decide (out_of_bounds (Some (n_steps hp)) i)); [reflexivity|].
  clear. destruct hp. vm_compute. reflexivity.
Qed.

(** The statements after the loop, when the loop has created nothing. *)
Lemma epilogue_run hp :
  epilogue (rnn_outputs_tensor hp) (y_tensor hp) (declared hp)
  = (Ok (loss_tensor, "Adam"), built hp).
Proof. destruct hp. vm_compute. reflexivity. Qed.

(** Cell 8 without its loop builds its graph. *)
Lemma model_without_loop hp :
  model hp [] (fresh_graph 42) = (Ok (bound hp), built hp).
Proof.
  rewrite model_pieces, prologue_run. cbn [for_in].
  unfold mret at 1, Build_ret at 1. by rewrite epilogue_run.
Qed.

(** With a loop of one iteration or more, the cell stops in the first. *)
Lemma model_with_loop hp i rest :
  model hp (i :: rest) (fresh_graph 42) =
  if decide (out_of_bounds (Some (n_steps hp)) i)
  then (Raise (ValueError (slice_message i)), stopped_at_slice hp)
  else (Raise (ValueError rank_message), stopped_at_xentropy hp i).
Proof.
  rewrite model_pieces, prologue_run. cbn [for_in].
  unfold mbind at 1, Build_bind at 1. rewrite first_iteration.
  by destruct (decide (out_of_bounds (Some (n_steps hp)) i)).
Qed.

(** The nodes of the three graphs. *)
Lemma built_operations hp :
  operations (built hp) = prologue_ops hp ++ epilogue_ops hp.
Proof. reflexivity. Qed.

Lemma stopped_at_slice_operations hp :
  operations (stopped_at_slice hp) = prologue_ops hp.
Proof. reflexivity. Qed.

Lemma stopped_at_xentropy_operations hp i :
  operations (stopped_at_xentropy hp i)
  = prologue_ops hp ++ first_iteration_ops hp i.
Proof. reflexivity. Qed.

(** Cell 8 as it stands, for hyperparameters that are sizes: index [0] is
    inside the steps, so the loop stops at the cross-entropy. *)
Lemma cell_8_run hp w :
  (0 < n_steps hp)%nat →
  cell_8 hp w =
  (Raise (ValueError rank_message),
   {| np_random := RandomKit.rk_seed 42 (np_random w);
      tf_default_graph := stopped_at_xentropy hp 0 |}).
Proof.
  intros Hsteps. run_cell_8. change (range 0 10) with (0 :: range 1 10).
  rewrite model_with_loop. rewrite decide_False; [done|].
  cbn [out_of_bounds]. intros Hout. apply Hout. lia.
Qed.

Lemma cell_8_without_loop_run hp w :
  cell_8_without_loop hp w =
  (Ok (bound hp),
   {| np_random := RandomKit.rk_seed 42 (np_random w);
      tf_default_graph := built hp |}).
Proof. run_cell_8. by rewrite model_without_loop. Qed.
(** *** Names *)

Lemma suffixed_inj base : Inj (=) (=) (suffixed base).
Proof.
  intros i j Heq. unfold suffixed in Heq.
  apply (inj (String.app base)) in Heq.
  apply (inj (String.app "_")) in Heq.
  by apply (inj pretty) in Heq.
Qed.

Lemma suffixed_ne base i : suffixed base i ≠ base.
Proof.
  unfold suffixed. induction base as [|c base IH]; [done|].
  cbn. intros [= Heq]. by apply IH.
Qed.

(** Either the loop of [unique_name] stops at a free key, or every key it
    tried was taken. *)
Lemma free_suffix_spec fuel names base i :
  let j := free_suffix fuel names base i in
  (i ≤ j)%nat ∧
  (∀ k, (i ≤ k < j)%nat → is_Some (names !! suffixed base k)) ∧
  (names !! suffixed base j = None ∨ j = (i + fuel)%nat).
Proof.
  revert i. induction fuel as [|fuel IH]; intros i; cbn [free_suffix].
  { split; [lia|]. split; [lia|]. right. lia. }
  destruct (decide (is_Some (names !! suffixed base i))) as [Htaken|Hfree].
  - destruct (IH (S i)) as (Hle & Hbelow & Hend). cbv zeta in *.
    split; [lia|]. split.
    + intros k Hk. destruct (decide (k = i)) as [Hki|Hki]; [by subst k|].
      apply Hbelow. lia.
    + destruct Hend as [Hend|Hend]; [by left|right; lia].
  - split; [lia|]. split; [lia|]. left.
    by apply eq_None_not_Some.
Qed.

(** No more keys can be taken than the dictionary holds. *)
Lemma taken_keys_bound (names : gmap string nat) base i n :
  (∀ k, (i ≤ k < i + n)%nat → is_Some (names !! suffixed base k)) →
  (n ≤ size names)%nat.
Proof.
  intros Htaken.
  set (l := suffixed base <$> seq i n).
  assert (Hnodup : NoDup l).
  { apply (NoDup_fmap_2 _). apply NoDup_seq. }
  rewrite <-(size_dom (D:=gset string)).
  replace n with (length l) by (unfold l; by rewrite length_fmap, length_seq).
  rewrite <-(size_list_to_set (C:=gset string) l Hnodup).
  apply subseteq_size. intros key Hkey.
  apply elem_of_list_to_set, list_elem_of_fmap in Hkey as (k & -> & Hk).
  apply elem_of_seq in Hk. apply elem_of_dom, Htaken. lia.
Qed.

(** The nodes of the graph the statements of cell 8 leave, whatever the
    loop iterates over. *)
Lemma model_operations hp its :
  operations (model hp its (fresh_graph 42)).2 =
  prologue_ops hp ++
  match its with
  | [] => epilogue_ops hp
  | i :: _ =>
      if decide (out_of_bounds (Some (n_steps hp)) i) then []
      else first_iteration_ops hp i
  end.
Proof.
  destruct its as [|i rest].
  - by rewrite model_without_loop.
  - rewrite model_with_loop.
    destruct (decide (out_of_bounds (Some (n_steps hp)) i)); cbn [snd].
    + by rewrite stopped_at_slice_operations, app_nil_r.
    + by rewrite stopped_at_xentropy_operations.
Qed.

(** Its variables start with the kernel and the bias of the cell. *)
Lemma model_variables hp its :
  take 2 (variables (model hp its (fresh_graph 42)).2)
  = [kernel_tensor hp; bias_tensor hp].
Proof.
  destruct its as [|i rest].
  - by rewrite model_without_loop.
  - rewrite model_with_loop.
    by destruct (decide (out_of_bounds (Some (n_steps hp)) i)).
Qed.

(** On a graph that holds the kernel already, the statements of cell 8 stop
    at the first [dynamic_rnn]: the new cell object cannot create its
    kernel. *)
Lemma model_on_used_graph hp its g :
  "rnn/basic_rnn_cell/kernel" ∈ producer <$> variables g →
  (model hp its g).1 =
  Raise (ValueError "Variable rnn/basic_rnn_cell/kernel already exists, disallowed. Did you mean to set reuse=True or reuse=tf.AUTO_REUSE in VarScope?").
Proof.
  intros Hold. unfold model, mbind, Build_bind.
  unfold placeholder at 1, mbind, Build_bind.
  destruct (unique_name_returns "Placeholder" g) as (s1 & g1 & -> & _ & Hv1 & _).
  unfold append_op at 1, mret at 1, Build_ret at 1.
  unfold placeholder at 1, mbind, Build_bind.
  set (g1' := {| operations := operations g1 ++ _ |}).
  destruct (unique_name_returns "Placeholder" g1')
    as (s2 & g2 & -> & _ & Hv2 & _).
  unfold append_op at 1, mret at 1, Build_ret at 1.
  unfold dynamic_rnn at 1, mbind, Build_bind.
  set (g2' := {| operations := operations g2 ++ _ |}).
  destruct (unique_name_returns "rnn" g2') as (s3 & g3 & -> & _ & Hv3 & _).
  cbn [t_shape]. unfold build_cell. cbn [cell_weights].
  unfold mbind, Build_bind.
  rewrite get_variable_exists; [reflexivity|].
  rewrite Hv3. subst g2'. cbn [variables]. rewrite Hv2. subst g1'.
  cbn [variables]. by rewrite Hv1.
Qed.

(** ** The loss, the shapes and the loop of cell 8 *)

(** C7, as the code has it.  Cell 8 declares its loss after its loop, and
    with the loop deleted (and hyperparameters that are sizes) it builds it:
    the loss is [tf.reduce_sum] of the softmax cross-entropy between
    [rnn_outputs], taken as logits, and the label placeholder [y], one
    value per position [(?, n_steps)] summed to a scalar; this sum is what
    [minimize] is given, and no node of the graph is a mean. *)
Theorem loss_is_summed_cross_entropy hp w :
  positive_sizes hp →
  ∃ ns w' per_position vars,
    cell_8_without_loop hp w = (Ok ns, w') ∧
    find_op (tf_default_graph w') (producer (cross_entropy ns))
    = Some {| name := "Sum"; kind := Sum per_position;
              outputs := [cross_entropy ns] |} ∧
    find_op (tf_default_graph w') (producer per_position)
    = Some {| name := "softmax_cross_entropy_with_logits_sg";
              kind := SoftmaxCrossEntropyWithLogits (rnn_outputs ns) (y ns);
              outputs := [per_position] |} ∧
    t_shape per_position = [None; Some (n_steps hp)] ∧
    t_shape (cross_entropy ns) = [] ∧
    find_op (tf_default_graph w') (minimize ns)
    = Some {| name := "Adam";
              kind := AdamMinimize (1 # 1000) (cross_entropy ns) vars;
              outputs := [] |} ∧
    Forall (λ o, ∀ t, kind o ≠ Mean t) (operations (tf_default_graph w')).
Proof.
  intros _. rewrite cell_8_without_loop_run.
  eexists _, _, (per_position_tensor hp), _. split; [reflexivity|].
  cbn [tf_default_graph bound cross_entropy rnn_outputs y minimize].
  split; [reflexivity|]. split; [reflexivity|]. split; [reflexivity|].
  split; [reflexivity|]. split; [reflexivity|].
  rewrite built_operations.
  repeat apply Forall_cons_2; [..|apply Forall_nil_2]; by intros ? [=].
Qed.

Lemma loss_is_summed_cross_entropy_witness :
  positive_sizes cell_6 ∧
  ∃ ns w' per_position vars,
    cell_8_without_loop cell_6 (seeded_world 0) = (Ok ns, w') ∧
    find_op (tf_default_graph w') (producer (cross_entropy ns))
    = Some {| name := "Sum"; kind := Sum per_position;
              outputs := [cross_entropy ns] |} ∧
    find_op (tf_default_graph w') (producer per_position)
    = Some {| name := "softmax_cross_entropy_with_logits_sg";
              kind := SoftmaxCrossEntropyWithLogits (rnn_outputs ns) (y ns);
              outputs := [per_position] |} ∧
    t_shape per_position = [None; Some (n_steps cell_6)] ∧
    t_shape (cross_entropy ns) = [] ∧
    find_op (tf_default_graph w') (minimize ns)
    = Some {| name := "Adam";
              kind := AdamMinimize (1 # 1000) (cross_entropy ns) vars;
              outputs := [] |} ∧
    Forall (λ o, ∀ t, kind o ≠ Mean t) (operations (tf_default_graph w')).
Proof.
  assert (H : positive_sizes cell_6) by (vm_compute; lia).
  split; [exact H|].
  exact (loss_is_summed_cross_entropy cell_6 (seeded_world 0) H).
Defined.

(** C7 fails as stated: with the hyperparameters of cell 6, the node that
    computes the loss of the cell without its loop is a [Sum], and no node
    of its graph is a [Mean]; cell 8 as it stands raises and leaves a graph
    with no [Mean] either. *)
Lemma loss_is_not_the_mean :
  (∃ ns w' per_position,
     cell_8_without_loop cell_6 (seeded_world 0) = (Ok ns, w') ∧
     find_op (tf_default_graph w') (producer (cross_entropy ns))
     = Some {| name := "Sum"; kind := Sum per_position;
               outputs := [cross_entropy ns] |} ∧
     (∀ t, Sum per_position ≠ Mean t) ∧
     Forall (λ o, ∀ t, kind o ≠ Mean t) (operations (tf_default_graph w'))) ∧
  (∃ e, (cell_8 cell_6 (seeded_world 0)).1 = Raise e) ∧
  Forall (λ o, ∀ t, kind o ≠ Mean t)
    (operations (tf_default_graph (cell_8 cell_6 (seeded_world 0)).2)).
Proof.
  split; [|split].
  - rewrite cell_8_without_loop_run.
    eexists _, _, (per_position_tensor cell_6). split; [reflexivity|].
    split; [reflexivity|]. split; [done|].
    cbn [tf_default_graph]. rewrite built_operations.
    repeat apply Forall_cons_2; [..|apply Forall_nil_2]; by intros ? [=].
  - rewrite cell_8_run by (cbn; lia). eauto.
  - rewrite cell_8_run by (cbn; lia). cbn [snd tf_default_graph].
    rewrite stopped_at_xentropy_operations.
    repeat apply Forall_cons_2; [..|apply Forall_nil_2]; by intros ? [=].
Qed.

(** C8, as the code has it.  Cell 8 stops in its loop, but by then its graph
    holds the forward pass, and the shapes can be read there.  Fed a batch
    of [batch] sequences, the input [X] is [batch x n_steps x n_inputs] and
    the per-step output [rnn_outputs], output 0 of node [rnn_1], is
    [batch x n_steps x n_neurons]: its two leading dimensions are those of
    the input, and every position carries [n_neurons] values.  The final
    state is [batch x n_neurons], and [logits], that the first iteration
    makes of it, is [batch x n_outputs].  The cell without its loop binds
    [rnn_outputs] and [states] to these tensors. *)
Theorem rnn_outputs_shape hp w batch :
  positive_sizes hp →
  ∃ x ro st lg kernel bias,
    find_op (tf_default_graph (cell_8 hp w).2) "Placeholder"
    = Some {| name := "Placeholder"; kind := Placeholder; outputs := [x] |} ∧
    find_op (tf_default_graph (cell_8 hp w).2) "rnn_1"
    = Some {| name := "rnn_1"; kind := DynamicRNN (rnn_cell hp) x;
              outputs := [ro; st] |} ∧
    find_op (tf_default_graph (cell_8 hp w).2) "dense"
    = Some {| name := "dense"; kind := Dense st kernel bias (n_outputs hp);
              outputs := [lg] |} ∧
    fed_shape batch x = [batch; n_steps hp; n_inputs hp] ∧
    fed_shape batch ro = [batch; n_steps hp; n_neurons hp] ∧
    take 2 (fed_shape batch ro) = take 2 (fed_shape batch x) ∧
    fed_shape batch st = [batch; n_neurons hp] ∧
    fed_shape batch lg = [batch; n_outputs hp] ∧
    ∃ ns w',
      cell_8_without_loop hp w = (Ok ns, w') ∧
      X ns = x ∧ rnn_outputs ns = ro ∧ states ns = st.
Proof.
  intros (Hsteps & _). rewrite cell_8_run by done.
  rewrite cell_8_without_loop_run. cbn [snd tf_default_graph].
  exists (X_tensor hp), (rnn_outputs_tensor hp), (states_tensor hp),
    (logits_tensor hp), (dense_kernel hp), (dense_bias hp).
  do 8 (split; [reflexivity|]).
  eexists _, _. split; [reflexivity|]. done.
Qed.

Lemma rnn_outputs_shape_witness :
  positive_sizes cell_6 ∧
  ∃ x ro st lg kernel bias,
    find_op (tf_default_graph (cell_8 cell_6 (seeded_world 0)).2) "Placeholder"
    = Some {| name := "Placeholder"; kind := Placeholder; outputs := [x] |} ∧
    find_op (tf_default_graph (cell_8 cell_6 (seeded_world 0)).2) "rnn_1"
    = Some {| name := "rnn_1"; kind := DynamicRNN (rnn_cell cell_6) x;
              outputs := [ro; st] |} ∧
    find_op (tf_default_graph (cell_8 cell_6 (seeded_world 0)).2) "dense"
    = Some {| name := "dense"; kind := Dense st kernel bias (n_outputs cell_6);
              outputs := [lg] |} ∧
    fed_shape 1000 x = [1000; n_steps cell_6; n_inputs cell_6]%nat ∧
    fed_shape 1000 ro = [1000; n_steps cell_6; n_neurons cell_6]%nat ∧
    take 2 (fed_shape 1000 ro) = take 2 (fed_shape 1000 x) ∧
    fed_shape 1000 st = [1000; n_neurons cell_6]%nat ∧
    fed_shape 1000 lg = [1000; n_outputs cell_6]%nat ∧
    ∃ ns w',
      cell_8_without_loop cell_6 (seeded_world 0) = (Ok ns, w') ∧
      X ns = x ∧ rnn_outputs ns = ro ∧ states ns = st.
Proof.
  assert (H : positive_sizes cell_6) by (vm_compute; lia).
  split; [exact H|].
  exact (rnn_outputs_shape cell_6 (seeded_world 0) 1000 H).
Defined.

(** C8 fails as stated: with the hyperparameters of cell 6 and a batch of
    [1000] sequences of [10] steps, the per-step output has shape
    [(1000, 10, 7)], not [(1000, 10)]. *)
Lemma rnn_outputs_shape_counterexample :
  ∃ k ro st,
    find_op (tf_default_graph (cell_8 cell_6 (seeded_world 0)).2) "rnn_1"
    = Some {| name := "rnn_1"; kind := k; outputs := [ro; st] |} ∧
    fed_shape 1000 ro = [1000; 10; 7]%nat ∧
    fed_shape 1000 ro ≠ [1000; 10]%nat.
Proof.
  rewrite cell_8_run by (cbn; lia). cbn [snd tf_default_graph].
  eexists _, _, _. split; [reflexivity|]. split; [reflexivity|]. done.
Qed.

(** C9.  Cell 8 as it stands, with hyperparameters that are sizes, never
    declares a loss: the first iteration of its loop raises [ValueError],
    because [y], of three dimensions, is given as the labels of logits of
    two, and the graph it leaves has no cross-entropy, no reduction and no
    training operation.  With the loop deleted the cell returns, and its
    training operation minimizes the sum of the softmax cross-entropy of
    [rnn_outputs] and [y], in a graph that holds no slice, no dense layer
    and no sparse cross-entropy. *)
Theorem loop_stops_the_cell hp w :
  positive_sizes hp →
  (cell_8 hp w).1 = Raise (ValueError rank_message) ∧
  Forall (λ o, ¬ loss_kind (kind o))
    (operations (tf_default_graph (cell_8 hp w).2)) ∧
  ∃ ns w' per_position vars,
    cell_8_without_loop hp w = (Ok ns, w') ∧
    find_op (tf_default_graph w') (minimize ns)
    = Some {| name := "Adam";
              kind := AdamMinimize (1 # 1000) (cross_entropy ns) vars;
              outputs := [] |} ∧
    find_op (tf_default_graph w') (producer (cross_entropy ns))
    = Some {| name := "Sum"; kind := Sum per_position;
              outputs := [cross_entropy ns] |} ∧
    find_op (tf_default_graph w') (producer per_position)
    = Some {| name := "softmax_cross_entropy_with_logits_sg";
              kind := SoftmaxCrossEntropyWithLogits (rnn_outputs ns) (y ns);
              outputs := [per_position] |} ∧
    Forall (λ o, match kind o with
                 | StridedSlice _ _ | Dense _ _ _ _
                 | SparseSoftmaxCrossEntropyWithLogits _ _ => False
                 | _ => True
                 end)
      (operations (tf_default_graph w')).
Proof.
  intros (Hsteps & _). rewrite cell_8_run by done.
  rewrite cell_8_without_loop_run. cbn [fst snd tf_default_graph].
  split; [reflexivity|]. split.
  { rewrite stopped_at_xentropy_operations.
    repeat apply Forall_cons_2; [..|apply Forall_nil_2]; by intros []. }
  eexists _, _, (per_position_tensor hp), _. split; [reflexivity|].
  cbn [tf_default_graph bound cross_entropy rnn_outputs y minimize].
  split; [reflexivity|]. split; [reflexivity|]. split; [reflexivity|].
  rewrite built_operations.
  repeat apply Forall_cons_2; [..|apply Forall_nil_2]; done.
Qed.

Lemma loop_stops_the_cell_witness :
  positive_sizes cell_6 ∧
  (cell_8 cell_6 (seeded_world 0)).1 = Raise (ValueError rank_message) ∧
  Forall (λ o, ¬ loss_kind (kind o))
    (operations (tf_default_graph (cell_8 cell_6 (seeded_world 0)).2)) ∧
  ∃ ns w' per_position vars,
    cell_8_without_loop cell_6 (seeded_world 0) = (Ok ns, w') ∧
    find_op (tf_default_graph w') (minimize ns)
    = Some {| name := "Adam";
              kind := AdamMinimize (1 # 1000) (cross_entropy ns) vars;
              outputs := [] |} ∧
    find_op (tf_default_graph w') (producer (cross_entropy ns))
    = Some {| name := "Sum"; kind := Sum per_position;
              outputs := [cross_entropy ns] |} ∧
    find_op (tf_default_graph w') (producer per_position)
    = Some {| name := "softmax_cross_entropy_with_logits_sg";
              kind := SoftmaxCrossEntropyWithLogits (rnn_outputs ns) (y ns);
              outputs := [per_position] |} ∧
    Forall (λ o, match kind o with
                 | StridedSlice _ _ | Dense _ _ _ _
                 | SparseSoftmaxCrossEntropyWithLogits _ _ => False
                 | _ => True
                 end)
      (operations (tf_default_graph w')).
Proof.
  assert (H : positive_sizes cell_6) by (vm_compute; lia).
  split; [exact H|].
  exact (loop_stops_the_cell cell_6 (seeded_world 0) H).
Defined.

(** ** More about the graph cell *)

(** X11.  The two calls of [dynamic_rnn] share the one cell object, so they
    share its weights: the first call creates the kernel,
    [(n_inputs + n_neurons) x n_neurons], and the bias, [n_neurons], under
    [rnn/basic_rnn_cell]; the second call creates no variable and reads
    these two.  Both nodes read [X]; nothing in the graph cell 8 leaves
    reads a tensor of the first node, whose outputs the second assignment
    to [rnn_outputs, states] drops. *)
Theorem shared_cell_weights hp w :
  positive_sizes hp →
  let g := tf_default_graph (cell_8 hp w).2 in
  find_op g "rnn" = Some (rnn_op "rnn" hp) ∧
  find_op g "rnn_1" = Some (rnn_op "rnn_1" hp) ∧
  op_inputs (kind (rnn_op "rnn" hp))
  = [X_tensor hp; kernel_tensor hp; bias_tensor hp] ∧
  op_inputs (kind (rnn_op "rnn_1" hp))
  = [X_tensor hp; kernel_tensor hp; bias_tensor hp] ∧
  t_shape (kernel_tensor hp)
  = [Some (n_inputs hp + n_neurons hp)%nat; Some (n_neurons hp)] ∧
  t_shape (bias_tensor hp) = [Some (n_neurons hp)] ∧
  filter (λ v, String.prefix "rnn/" (producer v) = true) (variables g)
  = [kernel_tensor hp; bias_tensor hp] ∧
  Forall (λ o, Forall (λ t, producer t ≠ "rnn") (op_inputs (kind o)))
    (operations g).
Proof.
  intros (Hsteps & _). cbv zeta. rewrite cell_8_run by done.
  cbn [snd tf_default_graph].
  do 7 (split; [reflexivity|]).
  rewrite stopped_at_xentropy_operations.
  repeat apply Forall_cons_2; [..|apply Forall_nil_2];
    cbn [kind op_inputs rnn_op variable_op cell_weights rnn_cell];
    repeat apply Forall_cons_2; try apply Forall_nil_2; done.
Qed.

Lemma shared_cell_weights_witness :
  positive_sizes cell_6 ∧
  let g := tf_default_graph (cell_8 cell_6 (seeded_world 0)).2 in
  find_op g "rnn" = Some (rnn_op "rnn" cell_6) ∧
  find_op g "rnn_1" = Some (rnn_op "rnn_1" cell_6) ∧
  op_inputs (kind (rnn_op "rnn" cell_6))
  = [X_tensor cell_6; kernel_tensor cell_6; bias_tensor cell_6] ∧
  op_inputs (kind (rnn_op "rnn_1" cell_6))
  = [X_tensor cell_6; kernel_tensor cell_6; bias_tensor cell_6] ∧
  t_shape (kernel_tensor cell_6)
  = [Some (n_inputs cell_6 + n_neurons cell_6)%nat; Some (n_neurons cell_6)] ∧
  t_shape (bias_tensor cell_6) = [Some (n_neurons cell_6)] ∧
  filter (λ v, String.prefix "rnn/" (producer v) = true) (variables g)
  = [kernel_tensor cell_6; bias_tensor cell_6] ∧
  Forall (λ o, Forall (λ t, producer t ≠ "rnn") (op_inputs (kind o)))
    (operations g).
Proof.
  assert (H : positive_sizes cell_6) by (vm_compute; lia).
  split; [exact H|].
  exact (shared_cell_weights cell_6 (seeded_world 0) H).
Defined.

Lemma model_ignores_learning_rate hp lr its :
  model (with_learning_rate lr hp) its = model hp its.
Proof. reflexivity. Qed.

(** X12.  [learning_rate] of cell 6 is read by nothing in cell 8: whatever it is
    set to, the cell does the same, with or without its loop.  The optimizer
    is made by [AdamOptimizer()], so a training operation, where the graph
    has one, runs at the default rate [0.001]. *)
Theorem learning_rate_is_not_read hp lr its w :
  cell_8 (with_learning_rate lr hp) w = cell_8 hp w ∧
  cell_8_without_loop (with_learning_rate lr hp) w = cell_8_without_loop hp w ∧
  Forall (λ o, ∀ rate loss vars,
            kind o = AdamMinimize rate loss vars → rate = 1 # 1000)
    (operations (model (with_learning_rate lr hp) its (fresh_graph 42)).2).
Proof.
  split; [|split].
  - unfold cell_8. by rewrite model_ignores_learning_rate.
  - unfold cell_8_without_loop. by rewrite model_ignores_learning_rate.
  - rewrite model_ignores_learning_rate, model_operations.
    apply Forall_app. split.
    { repeat apply Forall_cons_2; [..|apply Forall_nil_2]; by intros ? ? ? [=]. }
    destruct its as [|i rest].
    + repeat apply Forall_cons_2; [..|apply Forall_nil_2];
        [by intros ? ? ? [=]..|]. by intros ? ? ? [= <- _ _].
    + destruct (decide (out_of_bounds (Some (n_steps hp)) i));
        [apply Forall_nil_2|].
      repeat apply Forall_cons_2; [..|apply Forall_nil_2]; by intros ? ? ? [=].
Qed.

(** X13.  Cell 4 and cell 8 do not disturb each other: each of them seeds what it
    uses, so the batch is the same whether or not cell 8 ran before, and the
    graph and the names of cell 8 are the same whether or not cell 4 ran
    before. *)
Theorem cells_do_not_interfere hp batch_size seq_len seed w :
  world_wf w →
  (generate batch_size seq_len seed (cell_8 hp w).2).1
  = (generate batch_size seq_len seed w).1 ∧
  (cell_8 hp (generate batch_size seq_len seed w).2).1 = (cell_8 hp w).1 ∧
  tf_default_graph (cell_8 hp (generate batch_size seq_len seed w).2).2
  = tf_default_graph (cell_8 hp w).2.
Proof.
  intros Hw.
  split; [|run_cell_8; cbn [fst snd tf_default_graph]; split; reflexivity].
  apply Sampler.generate_outcome_ext; [|exact Hw].
  run_cell_8. unfold world_wf. cbn [snd np_random].
  by apply RandomKitFacts.rk_seed_wf.
Qed.

Lemma cells_do_not_interfere_witness :
  world_wf (seeded_world 0) ∧
  (generate 1 10 20 (cell_8 cell_6 (seeded_world 0)).2).1
  = (generate 1 10 20 (seeded_world 0)).1 ∧
  (cell_8 cell_6 (generate 1 10 20 (seeded_world 0)).2).1
  = (cell_8 cell_6 (seeded_world 0)).1 ∧
  tf_default_graph (cell_8 cell_6 (generate 1 10 20 (seeded_world 0)).2).2
  = tf_default_graph (cell_8 cell_6 (seeded_world 0)).2.
Proof.
  assert (H : world_wf (seeded_world 0)) by (vm_compute; reflexivity).
  split; [exact H|].
  exact (cells_do_not_interfere cell_6 1 10 20 (seeded_world 0) H).
Defined.

(** X14.  Cell 8 run a second time does what the first run did and leaves
    the process as the first run left it, because it starts with
    [reset_graph()].  Its other statements alone, run on the graph the cell
    left (with its loop or without, and whatever the loop iterates over),
    stop at the first [dynamic_rnn] with a [ValueError]: the variable
    [rnn/basic_rnn_cell/kernel] is there already, and the new cell object
    cannot create its own. *)
Theorem cell_8_again hp its w :
  world_wf w →
  cell_8 hp (cell_8 hp w).2 = cell_8 hp w ∧
  ∃ msg,
    String.prefix "Variable rnn/basic_rnn_cell/kernel already exists" msg = true ∧
    (on_default_graph (model hp its) (cell_8 hp w).2).1
    = Raise (ValueError msg) ∧
    (on_default_graph (model hp its) (cell_8_without_loop hp w).2).1
    = Raise (ValueError msg).
Proof.
  intros Hw. split.
  - run_cell_8. cbn [snd np_random tf_default_graph].
    rewrite (RandomKitFacts.rk_seed_ext 42
               (RandomKit.rk_seed 42 (np_random w)) (np_random w));
      [done|by apply RandomKitFacts.rk_seed_wf|exact Hw].
  - eexists. split; [|split].
    2:{ run_cell_8. unfold on_default_graph. cbn [snd tf_default_graph].
        pose proof (model_on_used_graph hp its
                      (model hp (range 0 10) (fresh_graph 42)).2) as Hrun.
        destruct (model hp its _) as [r g']. cbn [fst] in *. apply Hrun.
        pose proof (model_variables hp (range 0 10)) as Hv.
        destruct (variables _) as [|v1 vs]; [done|].
        injection Hv as -> _. cbn. apply list_elem_of_here. }
    { reflexivity. }
    run_cell_8. unfold on_default_graph. cbn [snd tf_default_graph].
    pose proof (model_on_used_graph hp its (model hp [] (fresh_graph 42)).2)
      as Hrun.
    destruct (model hp its _) as [r g']. cbn [fst] in *. apply Hrun.
    pose proof (model_variables hp []) as Hv.
    destruct (variables _) as [|v1 vs]; [done|].
    injection Hv as -> _. cbn. apply list_elem_of_here.
Qed.

Lemma cell_8_again_witness :
  world_wf (seeded_world 0) ∧
  cell_8 cell_6 (cell_8 cell_6 (seeded_world 0)).2 = cell_8 cell_6 (seeded_world 0) ∧
  ∃ msg,
    String.prefix "Variable rnn/basic_rnn_cell/kernel already exists" msg = true ∧
    (on_default_graph (model cell_6 (range 0 10))
       (cell_8 cell_6 (seeded_world 0)).2).1
    = Raise (ValueError msg) ∧
    (on_default_graph (model cell_6 (range 0 10))
       (cell_8_without_loop cell_6 (seeded_world 0)).2).1
    = Raise (ValueError msg).
Proof.
  assert (H : world_wf (seeded_world 0)) by (vm_compute; reflexivity).
  split; [exact H|].
  exact (cell_8_again cell_6 (range 0 10) (seeded_world 0) H).
Defined.





(** X17.  [Graph.unique_name] on a name that was used [i] times before: the
    name gets the counter [j], the first from [i] on whose key
    ["name_j"] is free (the keys before it are taken), and the call marks
    that key as used and counts one more use of the name.  The loop that
    looks for the counter always ends on a free key. *)
Theorem unique_name_is_new nm g i :
  names_in_use g !! lower nm = Some i → (0 < i)%nat →
  ∃ j g',
    unique_name nm g = (Ok (suffixed nm j), g') ∧
    (i ≤ j)%nat ∧
    names_in_use g !! suffixed (lower nm) j = None ∧
    (∀ k, (i ≤ k < j)%nat →
       is_Some (names_in_use g !! suffixed (lower nm) k)) ∧
    names_in_use g' = <[suffixed (lower nm) j := 1%nat]>
                        (<[lower nm := S i]> (names_in_use g)) ∧
    operations g' = operations g ∧ variables g' = variables g.
Proof.
  intros Hused Hpos. unfold unique_name. rewrite Hused.
  change (default 0%nat (Some i)) with i.
  rewrite decide_False by lia.
  set (names := <[lower nm := S i]> (names_in_use g)).
  destruct (free_suffix_spec (S (size names)) names (lower nm) i)
    as (Hle & Hbelow & Hend). cbv zeta in *.
  set (j := free_suffix (S (size names)) names (lower nm) i) in *.
  assert (Hfree : names !! suffixed (lower nm) j = None).
  { destruct Hend as [Hfree|Hall]; [done|].
    assert (S (size names) ≤ size names)%nat; [|lia].
    apply (taken_keys_bound names (lower nm) i). intros k Hk.
    apply Hbelow. lia. }
  eexists j, _. split; [reflexivity|]. split; [done|].
  cbn [names_in_use operations variables]. split; [|split; [|done]].
  - unfold names in Hfree.
    by rewrite lookup_insert_ne in Hfree by (symmetry; apply suffixed_ne).
  - intros k Hk. specialize (Hbelow k Hk). unfold names in Hbelow.
    by rewrite lookup_insert_ne in Hbelow by (symmetry; apply suffixed_ne).
Qed.

Lemma unique_name_is_new_witness :
  names_in_use (declared cell_6) !! lower "rnn" = Some 2%nat ∧ (0 < 2)%nat ∧
  ∃ j g',
    unique_name "rnn" (declared cell_6) = (Ok (suffixed "rnn" j), g') ∧
    (2 ≤ j)%nat ∧
    names_in_use (declared cell_6) !! suffixed (lower "rnn") j = None ∧
    (∀ k, (2 ≤ k < j)%nat →
       is_Some (names_in_use (declared cell_6) !! suffixed (lower "rnn") k)) ∧
    names_in_use g' = <[suffixed (lower "rnn") j := 1%nat]>
                        (<[lower "rnn" := 3%nat]>
                           (names_in_use (declared cell_6))) ∧
    operations g' = operations (declared cell_6) ∧
    variables g' = variables (declared cell_6).
Proof.
  assert (H : names_in_use (declared cell_6) !! lower "rnn" = Some 2%nat)
    by (vm_compute; reflexivity).
  split; [exact H|]. split; [lia|].
  exact (unique_name_is_new "rnn" (declared cell_6) 2 H ltac:(lia)).
Defined.

End Classifier.
